(** * SenseAct, [examples/advanced/dxl_reacher.py]

    A shallow embedding of the example script that trains TRPO on the
    Dynamixel reacher and draws a live learning curve in a second process.

    - [Np] holds the numpy operations the plotter calls, on [int64] arrays
      (lists of [Z] with the wrap-around written out) and on [float64]
      arrays (lists of primitive binary64 floats).
    - [Plot] is [plot_dxl_reacher]: the learning-curve computation, one
      iteration of the drawing loop, the loop itself and the final
      [savefig].
    - [Trainer] is [main], as the sequence of calls it performs.
    - [Cli] is the [__main__] block: the [argparse] parser and the call of
      [main]. *)

From Stdlib Require Import String Ascii.
From Stdlib Require Import ZArith List Lia Bool Floats.
Import ListNotations.

Set Warnings "-inexact-float".

Open Scope Z_scope.

(** ** Exceptions and results *)

Inductive Exn : Type :=
| IndexError
| ValueError.

Inductive Result (A : Type) : Type :=
| Ok (a : A)
| Raise (e : Exn).

Arguments Ok {A} a.
Arguments Raise {A} e.

Definition rbind {A B : Type} (r : Result A) (k : A -> Result B) : Result B :=
  match r with
  | Ok a => k a
  | Raise e => Raise e
  end.

Declare Scope result_scope.
Delimit Scope result_scope with result.
Notation "x <- c ;; k" := (rbind c (fun x => k))
  (at level 61, c at next level, right associativity) : result_scope.

(** ** The numpy operations of the script *)

Module Np.

(** [int64] arithmetic wraps around silently in array operations. *)
Definition wrap64 (z : Z) : Z := (z + 2 ^ 63) mod 2 ^ 64 - 2 ^ 63.

Definition in_int64 (z : Z) : Prop := - 2 ^ 63 <= z < 2 ^ 63.

(** [np.arange(start, stop, step)] on integers, for a positive step:
    [ceil((stop - start) / step)] values [start + i * step]. *)
Definition arange (start stop step : Z) : list Z :=
  map (fun i => start + Z.of_nat i * step)
      (seq 0 (Z.to_nat ((stop - start + step - 1) / step))).

(** [k * a] for a Python int [k] and an [int64] array [a]. *)
Definition scale (k : Z) (a : list Z) : list Z :=
  map (fun x => wrap64 (k * x)) a.

(** [np.cumsum(a)] on an [int64] array. *)
Fixpoint cumsum_from (acc : Z) (a : list Z) : list Z :=
  match a with
  | [] => []
  | x :: a' => let acc' := wrap64 (acc + x) in acc' :: cumsum_from acc' a'
  end.

Definition cumsum (a : list Z) : list Z := cumsum_from 0 a.

(** [a[-1]]: the last element; an empty array has none. *)
Definition last_item {A : Type} (a : list A) : Result A :=
  match rev a with
  | [] => Raise IndexError
  | x :: _ => Ok x
  end.

(** [a > k] and [a < k], element by element. *)
Definition gt (a : list Z) (k : Z) : list bool := map (fun c => k <? c) a.
Definition lt (a : list Z) (k : Z) : list bool := map (fun c => c <? k) a.

(** [m1 * m2] on boolean arrays of one shape is the element-wise "and";
    the shorter length is kept here, the script only multiplies masks
    built from the same array. *)
Definition mask_mul (m1 m2 : list bool) : list bool :=
  map (fun p => andb (fst p) (snd p)) (combine m1 m2).

(** [a[mask]]: the elements where the mask holds; a mask of another
    length than the array is an [IndexError]. *)
Fixpoint select {A : Type} (a : list A) (mask : list bool) : list A :=
  match a, mask with
  | x :: a', b :: mask' => if b then x :: select a' mask' else select a' mask'
  | _, _ => []
  end.

Definition bool_index {A : Type} (a : list A) (mask : list bool)
  : Result (list A) :=
  if Nat.eqb (length a) (length mask) then Ok (select a mask)
  else Raise IndexError.

(** Truth value of a float: everything but [0.0] and [-0.0]. *)
Definition truthy (x : float) : bool := negb (PrimFloat.eqb x 0%float).

(** [a.any()] on a [float64] array. *)
Definition any (a : list float) : bool := existsb truthy a.

Definition float_of_nat (n : nat) : float :=
  PrimFloat.of_uint63 (Uint63.of_Z (Z.of_nat n)).

Definition sum (a : list float) : float :=
  fold_left PrimFloat.add a 0%float.

(** [np.mean(a)] on a [float64] array: the sum divided by the count
    (the blocked summation numpy uses on long arrays adds the same
    elements in another order). *)
Definition mean (a : list float) : float :=
  PrimFloat.div (sum a) (float_of_nat (length a)).

Definition is_nan (x : float) : bool := negb (PrimFloat.eqb x x).

(** [np.maximum] and [np.minimum] on two floats: a NaN wins. *)
Definition maximum (x y : float) : float :=
  if orb (PrimFloat.leb y x) (is_nan x) then x else y.
Definition minimum (x y : float) : float :=
  if orb (PrimFloat.leb x y) (is_nan x) then x else y.

(** [np.max(a)] and [np.min(a)]: reductions without identity, so an
    empty array is a [ValueError]. *)
Definition max (a : list float) : Result float :=
  match a with
  | [] => Raise ValueError
  | x :: a' => Ok (fold_left maximum a' x)
  end.

Definition min (a : list float) : Result float :=
  match a with
  | [] => Raise ValueError
  | x :: a' => Ok (fold_left minimum a' x)
  end.

End Np.

(** ** The matplotlib operation of the script that computes *)

Module Mpl.

(** A bounding box, as its two corners. *)
Record Bbox : Type := mkBbox {
  x0 : float; y0 : float; x1 : float; y1 : float
}.

(** [Bbox.expanded(sw, sh)]: the box scaled by [sw] and [sh] around its
    centre. *)
Definition expanded (b : Bbox) (sw sh : float) : Bbox :=
  let width := (x1 b - x0 b)%float in
  let height := (y1 b - y0 b)%float in
  let deltaw := ((sw * width - width) / 2)%float in
  let deltah := ((sh * height - height) / 2)%float in
  {| x0 := (x0 b + - deltaw)%float; y0 := (y0 b + - deltah)%float;
     x1 := (x1 b + deltaw)%float; y1 := (y1 b + deltah)%float |}.

End Mpl.

(** ** [plot_dxl_reacher] *)

Module Plot.

(** The managed dictionary [shared_returns] and its three keys. *)
Record SharedReturns : Type := mkShared {
  write_lock : bool;
  episodic_returns : list float;
  episodic_lengths : list Z
}.

(** What the plotter reads from the environment object in one iteration:
    [env._target_pos_.value], [env._present_pos_[-1]],
    [env._reward_.value], [env.angle_low], [env.angle_high]. *)
Record EnvReading : Type := mkEnv {
  _target_pos_ : float;
  _present_pos_ : float;
  _reward_ : float;
  angle_low : float;
  angle_high : float
}.

(** The artists the plotter mutates. A limit that the script has not set
    yet is [None]. *)
Record Figure : Type := mkFigure {
  hl1_xdata : list float; hl1_ydata : list float;
  hl2_xdata : list float; hl2_ydata : list float;
  ax1_xlim : option (float * float);
  ax1_ylim : option (float * float);
  ax1_title : option float;  (* "Current Reward: " + str(r) *)
  hl11_xdata : list Z; hl11_ydata : list float;
  ax2_xlim : option (Z * Z);
  ax2_ylim : option (float * float)
}.

(** What the plotter does to the outside, in order. *)
Inductive Effect : Type :=
| Sleep (seconds : float)
| CanvasDraw
| FlushEvents
| Savefig (name : string) (bbox_inches : Mpl.Bbox).

(** The local variables of [plot_dxl_reacher] that outlive an
    iteration, and the log of its effects. *)
Record Plotter : Type := mkPlotter {
  fig : Figure;
  old_size : nat;
  count : nat;
  effects : list Effect
}.

(** The learning-curve artists: the line [hl11] and the limits of
    [ax2]. *)
Definition learning_curve (p : Plotter)
  : list Z * list float * option (Z * Z) * option (float * float) :=
  (hl11_xdata (fig p), hl11_ydata (fig p), ax2_xlim (fig p), ax2_ylim (fig p)).

(** *** A state and exception monad over [Plotter] *)

Definition M (A : Type) : Type := Plotter -> Result A * Plotter.

Definition ret {A : Type} (a : A) : M A := fun p => (Ok a, p).

Definition bind {A B : Type} (m : M A) (k : A -> M B) : M B :=
  fun p => match m p with
           | (Ok a, p') => k a p'
           | (Raise e, p') => (Raise e, p')
           end.

Definition lift {A : Type} (r : Result A) : M A := fun p => (r, p).

Definition gets {A : Type} (f : Plotter -> A) : M A := fun p => (Ok (f p), p).

Definition modify (f : Plotter -> Plotter) : M unit := fun p => (Ok tt, f p).

Declare Scope plot_scope.
Delimit Scope plot_scope with plot.
Notation "x <- c ;; k" := (bind c (fun x => k))
  (at level 61, c at next level, right associativity) : plot_scope.
Notation "c ;; k" := (bind c (fun _ => k))
  (at level 61, right associativity) : plot_scope.

Definition with_fig (f : Figure -> Figure) : M unit :=
  modify (fun p => {| fig := f (fig p); old_size := old_size p;
                      count := count p; effects := effects p |}).

Definition emit (e : Effect) : M unit :=
  modify (fun p => {| fig := fig p; old_size := old_size p;
                      count := count p; effects := effects p ++ [e] |}).

Definition set_old_size (n : nat) : M unit :=
  modify (fun p => {| fig := fig p; old_size := n;
                      count := count p; effects := effects p |}).

Definition incr_count : M unit :=
  modify (fun p => {| fig := fig p; old_size := old_size p;
                      count := S (count p); effects := effects p |}).

Definition hl1_set_xdata (d : list float) : M unit :=
  with_fig (fun f => mkFigure d (hl1_ydata f) (hl2_xdata f) (hl2_ydata f)
    (ax1_xlim f) (ax1_ylim f) (ax1_title f)
    (hl11_xdata f) (hl11_ydata f) (ax2_xlim f) (ax2_ylim f)).
Definition hl1_set_ydata (d : list float) : M unit :=
  with_fig (fun f => mkFigure (hl1_xdata f) d (hl2_xdata f) (hl2_ydata f)
    (ax1_xlim f) (ax1_ylim f) (ax1_title f)
    (hl11_xdata f) (hl11_ydata f) (ax2_xlim f) (ax2_ylim f)).
Definition hl2_set_xdata (d : list float) : M unit :=
  with_fig (fun f => mkFigure (hl1_xdata f) (hl1_ydata f) d (hl2_ydata f)
    (ax1_xlim f) (ax1_ylim f) (ax1_title f)
    (hl11_xdata f) (hl11_ydata f) (ax2_xlim f) (ax2_ylim f)).
Definition hl2_set_ydata (d : list float) : M unit :=
  with_fig (fun f => mkFigure (hl1_xdata f) (hl1_ydata f) (hl2_xdata f) d
    (ax1_xlim f) (ax1_ylim f) (ax1_title f)
    (hl11_xdata f) (hl11_ydata f) (ax2_xlim f) (ax2_ylim f)).
Definition ax1_set_xlim (l : float * float) : M unit :=
  with_fig (fun f => mkFigure (hl1_xdata f) (hl1_ydata f) (hl2_xdata f)
    (hl2_ydata f) (Some l) (ax1_ylim f) (ax1_title f)
    (hl11_xdata f) (hl11_ydata f) (ax2_xlim f) (ax2_ylim f)).
Definition ax1_set_ylim (l : float * float) : M unit :=
  with_fig (fun f => mkFigure (hl1_xdata f) (hl1_ydata f) (hl2_xdata f)
    (hl2_ydata f) (ax1_xlim f) (Some l) (ax1_title f)
    (hl11_xdata f) (hl11_ydata f) (ax2_xlim f) (ax2_ylim f)).
Definition ax1_set_title (r : float) : M unit :=
  with_fig (fun f => mkFigure (hl1_xdata f) (hl1_ydata f) (hl2_xdata f)
    (hl2_ydata f) (ax1_xlim f) (ax1_ylim f) (Some r)
    (hl11_xdata f) (hl11_ydata f) (ax2_xlim f) (ax2_ylim f)).
Definition hl11_set_xdata (d : list Z) : M unit :=
  with_fig (fun f => mkFigure (hl1_xdata f) (hl1_ydata f) (hl2_xdata f)
    (hl2_ydata f) (ax1_xlim f) (ax1_ylim f) (ax1_title f)
    d (hl11_ydata f) (ax2_xlim f) (ax2_ylim f)).
Definition hl11_set_ydata (d : list float) : M unit :=
  with_fig (fun f => mkFigure (hl1_xdata f) (hl1_ydata f) (hl2_xdata f)
    (hl2_ydata f) (ax1_xlim f) (ax1_ylim f) (ax1_title f)
    (hl11_xdata f) d (ax2_xlim f) (ax2_ylim f)).
Definition ax2_set_xlim (l : Z * Z) : M unit :=
  with_fig (fun f => mkFigure (hl1_xdata f) (hl1_ydata f) (hl2_xdata f)
    (hl2_ydata f) (ax1_xlim f) (ax1_ylim f) (ax1_title f)
    (hl11_xdata f) (hl11_ydata f) (Some l) (ax2_ylim f)).
Definition ax2_set_ylim (l : float * float) : M unit :=
  with_fig (fun f => mkFigure (hl1_xdata f) (hl1_ydata f) (hl2_xdata f)
    (hl2_ydata f) (ax1_xlim f) (ax1_ylim f) (ax1_title f)
    (hl11_xdata f) (hl11_ydata f) (ax2_xlim f) (Some l)).

(** [lim[::-1]] on what [get_xlim] or [get_ylim] returns. *)
Definition reversed (l : option (float * float)) : option (float * float) :=
  option_map (fun ab => (snd ab, fst ab)) l.

Definition ax1_reverse_xlim : M unit :=
  with_fig (fun f => mkFigure (hl1_xdata f) (hl1_ydata f) (hl2_xdata f)
    (hl2_ydata f) (reversed (ax1_xlim f)) (ax1_ylim f) (ax1_title f)
    (hl11_xdata f) (hl11_ydata f) (ax2_xlim f) (ax2_ylim f)).
Definition ax1_reverse_ylim : M unit :=
  with_fig (fun f => mkFigure (hl1_xdata f) (hl1_ydata f) (hl2_xdata f)
    (hl2_ydata f) (ax1_xlim f) (reversed (ax1_ylim f)) (ax1_title f)
    (hl11_xdata f) (hl11_ydata f) (ax2_xlim f) (ax2_ylim f)).

(** *** The learning curve (lines 160 to 185) *)

Definition window_size_steps : Z := 5000.
Definition x_tick : Z := 1000.

(** [copy.deepcopy(shared_returns)]: the value of the managed dictionary
    at the moment of the call; nothing the trainer appends later shows
    in it. *)
Definition deepcopy (shared : SharedReturns) : SharedReturns :=
  {| write_lock := write_lock shared;
     episodic_returns := episodic_returns shared;
     episodic_lengths := episodic_lengths shared |}.

(** The episode lengths of the snapshot or, when it has none,
    [batch_size * np.arange(len(returns))]. *)
Definition ep_lens (batch_size : Z) (copied : SharedReturns) : list Z :=
  match episodic_lengths copied with
  | _ :: _ => episodic_lengths copied
  | [] => Np.scale batch_size
            (Np.arange 0 (Z.of_nat (length (episodic_returns copied))) 1)
  end.

Definition cum_episode_lengths (batch_size : Z) (copied : SharedReturns)
  : list Z :=
  Np.cumsum (ep_lens batch_size copied).

(** [np.arange(x_tick, cum_episode_lengths[-1] + 1, x_tick)]. *)
Definition steps_show (last : Z) : list Z :=
  Np.arange x_tick (Np.wrap64 (last + 1)) x_tick.

(** The mask of the window of sample [i]:
    [(cum > max(0, x_tick * (i + 1) - window_size_steps)) *
     (cum < x_tick * (i + 1))]. *)
Definition window_mask (cum : list Z) (i : nat) : list bool :=
  Np.mask_mul
    (Np.gt cum (Z.max 0 (x_tick * (Z.of_nat i + 1) - window_size_steps)))
    (Np.lt cum (x_tick * (Z.of_nat i + 1))).

Definition rets_in_window (returns : list float) (cum : list Z) (i : nat)
  : Result (list float) :=
  Np.bool_index returns (window_mask cum i).

(** The body of the [for] loop: [rets] after sample [i]. *)
Definition window_step (returns : list float) (cum : list Z)
           (rets : list float) (i : nat) : Result (list float) :=
  (w <- rets_in_window returns cum i ;;
   if Np.any w then Ok (rets ++ [Np.mean w]) else Ok rets)%result.

(** [for i in range(...)], over the indices still to visit. *)
Fixpoint window_loop (returns : list float) (cum : list Z)
         (range : list nat) (rets : list float) : Result (list float) :=
  match range with
  | [] => Ok rets
  | i :: range' =>
      (rets' <- window_step returns cum rets i ;;
       window_loop returns cum range' rets')%result
  end.

(** [rets] as the loop leaves it, for the sample axis of [last]. *)
Definition averaged_returns (returns : list float) (cum : list Z) (last : Z)
  : Result (list float) :=
  window_loop returns cum (seq 0 (length (steps_show last))) [].

(** [np.arange(1, len(rets) + 1) * x_tick]. *)
Definition curve_xdata (rets : list float) : list Z :=
  Np.scale x_tick (Np.arange 1 (Z.of_nat (length rets) + 1) 1).

(** Lines 181 to 185: the line and the limits of [ax2] are set from
    [rets]. *)
Definition draw_curve (rets : list float) : M unit :=
  (hl11_set_xdata (curve_xdata rets) ;;
   ax2_set_xlim (x_tick, Z.of_nat (length rets) * x_tick) ;;
   hl11_set_ydata rets ;;
   hi <- lift (Np.max rets) ;;
   lo <- lift (Np.min rets) ;;
   let buffer := (PrimFloat.abs (hi - lo) * 0.05)%float in
   lo' <- lift (Np.min rets) ;;
   hi' <- lift (Np.max rets) ;;
   ax2_set_ylim ((lo' - buffer)%float, (hi' + buffer)%float))%plot.

(** Lines 160 to 185, on the snapshot [copied]. *)
Definition plot_learning_curve (batch_size : Z) (copied : SharedReturns)
  : M unit :=
  (let returns := episodic_returns copied in
   set_old_size (length (episodic_returns copied)) ;;
   let cum := cum_episode_lengths batch_size copied in
   last <- lift (Np.last_item cum) ;;
   if x_tick <=? last then
     rets <- lift (averaged_returns returns cum last) ;;
     draw_curve rets
   else ret tt)%plot.

(** *** One iteration of the [while] loop (lines 145 to 189) *)

(** Lines 145 to 153: the first subplot, target and present position. *)
Definition draw_positions (env : EnvReading) : M unit :=
  (hl1_set_ydata [1%float] ;;
   hl1_set_xdata [_target_pos_ env] ;;
   hl2_set_ydata [1%float] ;;
   hl2_set_xdata [_present_pos_ env] ;;
   ax1_set_ylim (0%float, 2%float) ;;
   ax1_set_xlim (angle_low env, angle_high env) ;;
   ax1_set_title (_reward_ env) ;;
   ax1_reverse_xlim ;;
   ax1_reverse_ylim)%plot.

(** Lines 157 to 185: the snapshot, the test on it, the learning
    curve. *)
Definition refresh_learning_curve (batch_size : Z)
           (shared_returns : SharedReturns) : M unit :=
  (let copied_returns := deepcopy shared_returns in
   size <- gets old_size ;;
   if negb (write_lock copied_returns)
      && (size <? length (episodic_returns copied_returns))%nat
   then plot_learning_curve batch_size copied_returns
   else ret tt)%plot.

(** Lines 186 to 189. *)
Definition end_of_turn : M unit :=
  (emit (Sleep 0.01%float) ;;
   emit CanvasDraw ;;
   emit FlushEvents ;;
   incr_count)%plot.

Definition plot_iteration (batch_size : Z) (env : EnvReading)
           (shared_returns : SharedReturns) : M unit :=
  (draw_positions env ;;
   refresh_learning_curve batch_size shared_returns ;;
   end_of_turn)%plot.

(** *** The loop and the final [savefig] *)

(** What one turn of the loop reads from outside the process: the flag
    [plot_running.value] at the loop test, then the environment and the
    managed dictionary. *)
Record Observation : Type := mkObs {
  plot_running_value : Z;
  env_now : EnvReading;
  shared_now : SharedReturns
}.

Inductive Status : Type :=
| Running            (* the flag was set at every test so far *)
| Died (e : Exn)     (* an exception left the process *)
| Returned.          (* the function ran to its end *)

(** [while plot_running.value: ...] over the observations of its
    successive turns. *)
Fixpoint plot_loop (batch_size : Z) (obs : list Observation) (p : Plotter)
  : Status * Plotter :=
  match obs with
  | [] => (Running, p)
  | o :: obs' =>
      if plot_running_value o =? 0 then (Returned, p)
      else match plot_iteration batch_size (env_now o) (shared_now o) p with
           | (Ok _, p') => plot_loop batch_size obs' p'
           | (Raise e, p') => (Died e, p')
           end
  end.

Definition empty_figure : Figure :=
  mkFigure [] [] [] [] None None None [] [] None None.

(** Lines 125 to 143: the empty figure after the first sleep, and
    [old_size] read from the managed dictionary. *)
Definition setup (shared_at_start : SharedReturns) : Plotter :=
  {| fig := empty_figure;
     old_size := length (episodic_returns shared_at_start);
     count := 0%nat;
     effects := [Sleep 5%float] |}.

Section PlotDxlReacher.

(** [ax2.get_window_extent().transformed(fig.dpi_scale_trans.inverted())]:
    where matplotlib has laid out the second subplot, in inches. *)
Variable window_extent : Figure -> Mpl.Bbox.

(** [plot_dxl_reacher(tag, env, batch_size, shared_returns,
    plot_running)]. [shared_at_start] is the managed dictionary when
    [old_size] is first read (line 143). *)
Definition plot_dxl_reacher (tag : string) (batch_size : Z)
           (shared_at_start : SharedReturns) (obs : list Observation)
  : Status * Plotter :=
  match plot_loop batch_size obs (setup shared_at_start) with
  | (Returned, p) =>
      let extent := window_extent (fig p) in
      match emit (Savefig (tag ++ ".png")
                          (Mpl.expanded extent 1.1%float 1.1%float)) p with
      | (_, p') => (Returned, p')
      end
  | stopped => stopped
  end.

End PlotDxlReacher.

End Plot.

(** ** [main] *)

(** The Python values that travel from the command line to [main]. *)
Inductive PyValue : Type :=
| PyNone
| PyStr (s : string)
| PyInt (z : Z).

Module Trainer.

(** The calls [main] makes, with the arguments that matter to it. *)
Inductive Call : Type :=
| time_time                      (* tag = str(time.time()) *)
| np_random_set_state            (* RandomState(1), set_state *)
| tf_set_seeds
| DxlReacher1DEnv (device_path idn baudrate : PyValue)
| NormalizedEnv
| env_start
| session_enter
| Value_i (initial : Z)          (* plot_running = Value('i', 1) *)
| Manager_dict (initial : Plot.SharedReturns)
| pp_start (batch_size : Z)      (* Process(target=plot_dxl_reacher, ...) *)
| create_callback
| learn (max_timesteps timesteps_per_batch : Z)
| plot_running_set (v : Z)       (* plot_running.value = v *)
| time_sleep (seconds : Z)
| pp_join
| env_close.

(** [main(port, id, baud)] has no branch and no loop of its own: it is
    this sequence of calls. *)
Definition main (port id baud : PyValue) : list Call :=
  [ time_time;
    np_random_set_state;
    tf_set_seeds;
    DxlReacher1DEnv port id baud;
    NormalizedEnv;
    env_start;
    session_enter;
    Value_i 1;
    Manager_dict (Plot.mkShared false [] []);
    pp_start 2048;
    create_callback;
    learn 50000 2048;
    plot_running_set 0;
    time_sleep 2;
    pp_join;
    env_close ].

End Trainer.

(** ** The [__main__] block

    The parser is argparse's, as CPython 3 has had it since the script
    was written: what is modelled of it is how one command line of
    strings is read against the declared options. *)

Module Cli.

Local Open Scope string_scope.

(** The [type=] converters the script names. *)
Inductive PyType : Type :=
| type_str
| type_int.

(** The two kinds of argparse action the parser holds. *)
Inductive Action : Type :=
| help_action (option_strings : list string)
| store_action (option_strings : list string) (dest : string)
               (type : PyType) (default : PyValue).

Definition option_strings_of (a : Action) : list string :=
  match a with
  | help_action os => os
  | store_action os _ _ _ => os
  end.

Record ArgumentParser : Type := mkParser {
  optionals : list Action;
  positionals : list Action;
  subparsers : option (list string)
}.

(** [argparse.ArgumentParser()]: [add_help] defaults to true, so the
    new parser already holds the help action. *)
Definition new_parser : ArgumentParser :=
  {| optionals := [help_action ["-h"; "--help"]];
     positionals := [];
     subparsers := None |}.

Definition starts_with_dash (s : string) : bool :=
  match s with
  | String "-" _ => true
  | _ => false
  end.

Fixpoint lstrip_dashes (s : string) : string :=
  match s with
  | String "-" s' => lstrip_dashes s'
  | _ => s
  end.

Fixpoint dashes_to_underscores (s : string) : string :=
  match s with
  | EmptyString => EmptyString
  | String "-" s' => String "_" (dashes_to_underscores s')
  | String c s' => String c (dashes_to_underscores s')
  end.

(** [parser.add_argument(name, type=..., default=...)]: a name that
    starts with a dash declares an optional whose [dest] is the name
    without its leading dashes. *)
Definition add_argument (p : ArgumentParser) (name : string)
           (type : PyType) (default : PyValue) : ArgumentParser :=
  let dest := dashes_to_underscores (lstrip_dashes name) in
  if starts_with_dash name then
    {| optionals := (optionals p ++ [store_action [name] dest type default])%list;
       positionals := positionals p;
       subparsers := subparsers p |}
  else
    {| optionals := optionals p;
       positionals := (positionals p ++ [store_action [] name type default])%list;
       subparsers := subparsers p |}.

(** Lines 197 to 200. *)
Definition parser : ArgumentParser :=
  let parser := new_parser in
  let parser := add_argument parser "--port" type_str PyNone in
  let parser := add_argument parser "--id" type_int (PyInt 1) in
  let parser := add_argument parser "--baud" type_int (PyInt 1000000) in
  parser.


(** [args.__dict__], in insertion order. *)
Definition Namespace : Type := list (string * PyValue).

Fixpoint getattr (ns : Namespace) (name : string) : option PyValue :=
  match ns with
  | [] => None
  | (k, v) :: ns' => if String.eqb k name then Some v else getattr ns' name
  end.

Fixpoint setattr (ns : Namespace) (name : string) (v : PyValue) : Namespace :=
  match ns with
  | [] => [(name, v)]
  | (k, w) :: ns' =>
      if String.eqb k name then (k, v) :: ns'
      else (k, w) :: setattr ns' name v
  end.

(** The namespace before any argument is read: each stored [dest] with
    its default. *)
Definition defaults (p : ArgumentParser) : Namespace :=
  fold_left
    (fun ns a => match a with
                 | store_action _ dest _ d => setattr ns dest d
                 | help_action _ => ns
                 end)
    (optionals p ++ positionals p)%list [].

(** How the parser reads one command-line string: an argument, the
    [--] separator, an option (with the option string it stands for and
    the value written in the same string, if any), a string that looks
    like an option and is none, or an abbreviation of several. *)
Inductive Token : Type :=
| Positional
| Separator
| Optional (a : Action) (option_string : string) (explicit_arg : option string)
| Unknown
| Ambiguous.

Definition is_digit (c : ascii) : bool :=
  let n := nat_of_ascii c in ((48 <=? n) && (n <=? 57))%nat.

Fixpoint all_digits (s : string) : bool :=
  match s with
  | EmptyString => true
  | String c s' => is_digit c && all_digits s'
  end.

Definition digits1 (s : string) : bool :=
  match s with
  | EmptyString => false
  | _ => all_digits s
  end.

(** The text before the first [c] and the text after it. *)
Fixpoint split_at (c : ascii) (s : string) : option (string * string) :=
  match s with
  | EmptyString => None
  | String d s' =>
      if Ascii.eqb c d then Some (EmptyString, s')
      else option_map (fun p => (String d (fst p), snd p)) (split_at c s')
  end.

(** argparse's pattern for negative numbers: [-\d+] or [-\d*\.\d+]. *)
Definition negative_number (s : string) : bool :=
  match s with
  | String "-" body =>
      digits1 body
      || match split_at "." body with
         | Some (whole, frac) => all_digits whole && digits1 frac
         | None => false
         end
  | _ => false
  end.

Fixpoint contains (c : ascii) (s : string) : bool :=
  match s with
  | EmptyString => false
  | String d s' => Ascii.eqb c d || contains c s'
  end.

Definition find_exact (p : ArgumentParser) (o : string) : option Action :=
  find (fun a => existsb (String.eqb o) (option_strings_of a)) (optionals p).

(** [_get_option_tuples]: the option strings that [t] abbreviates. A
    string in two dashes stands for the long options that start with its
    text up to [=]; a string in one dash stands for the short option
    made of its first two characters, the rest being written with it. *)
Definition option_tuples (p : ArgumentParser) (t : string)
  : list (Action * string * option string) :=
  if String.prefix "--" t then
    let o := match split_at "=" t with Some (o, _) => o | None => t end in
    let e := option_map snd (split_at "=" t) in
    flat_map
      (fun a => flat_map
                  (fun os => if String.prefix o os then [(a, os, e)] else [])
                  (option_strings_of a))
      (optionals p)
  else
    let short := substring 0 2 t in
    let tail := substring 2 (String.length t - 2) t in
    flat_map
      (fun a => flat_map
                  (fun os => if String.eqb os short then [(a, os, Some tail)]
                             else if String.prefix t os then [(a, os, None)]
                             else [])
                  (option_strings_of a))
      (optionals p).

(** [_parse_optional]: an exact option string, then [--opt=value], then
    an abbreviation, then the strings that only look like options. *)
Definition parse_optional (p : ArgumentParser) (t : string) : Token :=
  if negb (starts_with_dash t) then Positional
  else match find_exact p t with
  | Some a => Optional a t None
  | None =>
      if (String.length t =? 1)%nat then Positional
      else
        let exact_eq :=
          match split_at "=" t with
          | Some (o, e) => option_map (fun a => (a, o, e)) (find_exact p o)
          | None => None
          end in
        match exact_eq with
        | Some (a, o, e) => Optional a o (Some e)
        | None =>
            match option_tuples p t with
            | [(a, os, e)] => Optional a os e
            | _ :: _ :: _ => Ambiguous
            | [] =>
                if negative_number t then Positional
                else if contains " " t then Positional
                else Unknown
            end
        end
  end.

(** The command line as the parser first reads it, every string with
    its kind: after a [--] everything is an argument. *)
Fixpoint pattern (p : ArgumentParser) (argv : list string)
  : list (string * Token) :=
  match argv with
  | [] => []
  | t :: rest =>
      if String.eqb t "--"
      then (t, Separator) :: map (fun s => (s, Positional)) rest
      else (t, parse_optional p t) :: pattern p rest
  end.

Definition is_ambiguous (k : Token) : bool :=
  match k with
  | Ambiguous => true
  | _ => false
  end.

(** Short flags written after another one in the same string: each must
    be a declared flag that takes no value. *)
Fixpoint joined_flags (p : ArgumentParser) (e : string) : bool :=
  match e with
  | EmptyString => true
  | String c e' =>
      match find_exact p (String "-" (String c EmptyString)) with
      | Some (help_action _) => joined_flags p e'
      | _ => false
      end
  end.

(** What [parse_args] ends in: a namespace, the help text and exit
    status 0, or a usage error and exit status 2. *)
Inductive Outcome : Type :=
| Parsed (ns : Namespace)
| HelpExit
| ErrorExit.

Section ParseArgs.

(** Python's [int(s)] on a string; [None] when it raises. *)
Variable python_int : string -> option Z.

Definition convert (type : PyType) (s : string) : option PyValue :=
  match type with
  | type_str => Some (PyStr s)
  | type_int => option_map PyInt (python_int s)
  end.

(** The strings are taken from left to right; [extras] tells whether
    one was left unrecognised, which is an error once all are taken. An
    option without a value in its own string takes the next argument,
    with a [--] before or after it. *)
Fixpoint consume (p : ArgumentParser) (args : list (string * Token))
         (ns : Namespace) (extras : bool) : Outcome :=
  match args with
  | [] => if extras then ErrorExit else Parsed ns
  | (t, k) :: rest =>
      match k with
      | Positional | Separator | Unknown => consume p rest ns true
      | Ambiguous => ErrorExit
      | Optional (help_action _) _ None => HelpExit
      | Optional (help_action _) os (Some e) =>
          if negb (String.prefix "--" os) && joined_flags p e
          then HelpExit else ErrorExit
      | Optional (store_action _ dest type _) _ (Some e) =>
          match convert type e with
          | Some v => consume p rest (setattr ns dest v) extras
          | None => ErrorExit
          end
      | Optional (store_action _ dest type _) _ None =>
          match rest with
          | (a, Positional) :: (_, Separator) :: rest'
          | (_, Separator) :: (a, Positional) :: rest'
          | (a, Positional) :: rest' =>
              match convert type a with
              | Some v => consume p rest' (setattr ns dest v) extras
              | None => ErrorExit
              end
          | _ => ErrorExit
          end
      end
  end.

(** [parser.parse_args()] on the command line [argv]. *)
Definition parse_args (p : ArgumentParser) (argv : list string) : Outcome :=
  let args := pattern p argv in
  if existsb is_ambiguous (map snd args) then ErrorExit
  else consume p args (defaults p) false.

(** How the script ends: an exit status from the parser, a [TypeError]
    from the call, or the calls of [main]. *)
Inductive ScriptEnd : Type :=
| SystemExit (status : Z)
| TypeError
| Ran (calls : list Trainer.Call).

(** The call of [main] with the keywords of [args.__dict__]: they
    are bound to the parameters
    [port], [id] and [baud] by name; a missing or an unexpected
    keyword is a [TypeError]. *)
Definition call_main (kwargs : Namespace) : ScriptEnd :=
  match getattr kwargs "port", getattr kwargs "id", getattr kwargs "baud" with
  | Some port, Some id, Some baud =>
      if (length kwargs =? 3)%nat then Ran (Trainer.main port id baud)
      else TypeError
  | _, _, _ => TypeError
  end.

(** Lines 196 to 203, on the command line [argv] (without the program
    name). *)
Definition script (argv : list string) : ScriptEnd :=
  match parse_args parser argv with
  | Parsed args => call_main args
  | HelpExit => SystemExit 0
  | ErrorExit => SystemExit 2
  end.

End ParseArgs.

(** [int(s)] on a plain decimal literal with an optional sign; the
    converter used where a concrete one is needed. *)
Fixpoint decimal_digits (acc : Z) (s : string) : Z :=
  match s with
  | EmptyString => acc
  | String c s' =>
      decimal_digits (10 * acc + (Z.of_nat (nat_of_ascii c) - 48)) s'
  end.

Definition int_decimal (s : string) : option Z :=
  match s with
  | String "-" body =>
      if digits1 body then Some (- decimal_digits 0 body) else None
  | String "+" body =>
      if digits1 body then Some (decimal_digits 0 body) else None
  | _ => if digits1 s then Some (decimal_digits 0 s) else None
  end.

End Cli.

(** ** Definitions the properties are stated with *)

Module Stated.

(** The returns whose cumulative length lies strictly between [lo] and
    [hi], in the order they were recorded. *)
Definition returns_between (lo hi : Z) (returns : list float) (cum : list Z)
  : list float :=
  map fst
      (filter (fun rc => (lo <? snd rc) && (snd rc <? hi))
              (combine returns cum)).

(** The sample point of index [i]: [x_tick * (i + 1)]. *)
Definition sample_point (i : nat) : Z := Plot.x_tick * (Z.of_nat i + 1).

(** The window the spec describes for the sample point [s]: cumulative
    lengths strictly between [s - window] and [s]. *)
Definition window_as_specified (returns : list float) (cum : list Z) (s : Z)
  : list float :=
  returns_between (s - Plot.window_size_steps) s returns cum.

(** The same with the lower bound the code uses. *)
Definition window_clamped (returns : list float) (cum : list Z) (s : Z)
  : list float :=
  returns_between (Z.max 0 (s - Plot.window_size_steps)) s returns cum.

(** [1000; 2000; ...; n * 1000]. *)
Definition multiples_of_x_tick (n : nat) : list Z :=
  map (fun k => Plot.x_tick * Z.of_nat k) (seq 1 n).

(** The largest element of a list of non-negative integers ([0] for the
    empty list). *)
Definition maximum (l : list Z) : Z := fold_right Z.max 0 l.

(** Whether sample [i] contributes an average. *)
Definition contributes (returns : list float) (cum : list Z) (i : nat) : bool :=
  match Plot.rets_in_window returns cum i with
  | Ok w => Np.any w
  | Raise _ => false
  end.

(** The indices of the samples that contribute, in order. *)
Definition contributing (returns : list float) (cum : list Z) (last : Z)
  : list nat :=
  filter (contributes returns cum) (seq 0 (length (Plot.steps_show last))).

Definition is_savefig (e : Plot.Effect) : bool :=
  match e with
  | Plot.Savefig _ _ => true
  | _ => false
  end.

(** The files the plotter has written. *)
Definition saved_files (p : Plot.Plotter) : list Plot.Effect :=
  filter is_savefig (Plot.effects p).

(** The state after lines 145 to 153 of an iteration begun in [p]. *)
Definition after_positions (env : Plot.EnvReading) (p : Plot.Plotter)
  : Plot.Plotter :=
  {| Plot.fig :=
       Plot.mkFigure
         [Plot._target_pos_ env] [1%float]
         [Plot._present_pos_ env] [1%float]
         (Some (Plot.angle_high env, Plot.angle_low env))
         (Some (2%float, 0%float))
         (Some (Plot._reward_ env))
         (Plot.hl11_xdata (Plot.fig p)) (Plot.hl11_ydata (Plot.fig p))
         (Plot.ax2_xlim (Plot.fig p)) (Plot.ax2_ylim (Plot.fig p));
     Plot.old_size := Plot.old_size p;
     Plot.count := Plot.count p;
     Plot.effects := Plot.effects p |}.



(** The test of line 158, on the snapshot of [shared] and the count the
    plotter remembers. *)
Definition redraw_due (shared : Plot.SharedReturns) (p : Plot.Plotter) : bool :=
  negb (Plot.write_lock (Plot.deepcopy shared))
  && (Plot.old_size p
      <? length (Plot.episodic_returns (Plot.deepcopy shared)))%nat.

(** What the end of a completed turn of the loop does (lines 186 to
    188). *)
Definition turn_effects : list Plot.Effect :=
  [Plot.Sleep 0.01%float; Plot.CanvasDraw; Plot.FlushEvents].

(** The [k]-th triangular number, [0 + 1 + ... + k]. *)
Definition triangular (k : nat) : Z := Z.of_nat k * (Z.of_nat k + 1) / 2.

End Stated.

(** * Properties *)

(** ** Facts about the numpy operations *)

Module NpFacts.

Lemma wrap64_id (z : Z) : Np.in_int64 z -> Np.wrap64 z = z.
Proof.
  unfold Np.in_int64, Np.wrap64. intros H.
  rewrite Z.mod_small; lia.
Qed.

Lemma arange_from_zero (n : nat) :
  Np.arange 0 (Z.of_nat n) 1 = map Z.of_nat (seq 0 n).
Proof.
  unfold Np.arange.
  replace (Z.of_nat n - 0 + 1 - 1) with (Z.of_nat n) by lia.
  rewrite Z.div_1_r, Nat2Z.id.
  apply map_ext. intros i. lia.
Qed.

Lemma arange_from_one (n : nat) :
  Np.arange 1 (Z.of_nat n + 1) 1 = map Z.of_nat (seq 1 n).
Proof.
  unfold Np.arange.
  replace (Z.of_nat n + 1 - 1 + 1 - 1) with (Z.of_nat n) by lia.
  rewrite Z.div_1_r, Nat2Z.id, <- seq_shift, map_map.
  apply map_ext. intros i. lia.
Qed.

(** The multiples of a positive [step] from [step] up to [stop - 1]. *)
Lemma arange_multiples (step stop : Z) :
  0 < step ->
  Np.arange step stop step
  = map (fun k => step * Z.of_nat k) (seq 1 (Z.to_nat ((stop - 1) / step))).
Proof.
  intros Hstep. unfold Np.arange.
  replace (stop - step + step - 1) with (stop - 1) by lia.
  rewrite <- seq_shift, map_map.
  apply map_ext. intros i. lia.
Qed.

Lemma last_item_cons {A : Type} (x : A) (l : list A) :
  Np.last_item (x :: l) = Ok (last l x).
Proof.
  unfold Np.last_item.
  destruct l as [|y l'] using rev_ind; [reflexivity|].
  rewrite last_last. cbn [rev].
  rewrite rev_app_distr. reflexivity.
Qed.

Lemma mask_mul_map (f g : Z -> bool) (a : list Z) :
  Np.mask_mul (map f a) (map g a) = map (fun c => f c && g c) a.
Proof.
  unfold Np.mask_mul.
  induction a as [|c a IH]; cbn; [reflexivity|].
  f_equal. exact IH.
Qed.

Lemma select_map_filter {A : Type} (f : Z -> bool) :
  forall (a : list A) (cum : list Z),
    length a = length cum ->
    Np.select a (map f cum)
    = map fst (filter (fun rc => f (snd rc)) (combine a cum)).
Proof.
  induction a as [|x a IH]; intros [|c cum] Hlen; cbn in *;
    try reflexivity; try discriminate.
  injection Hlen as Hlen.
  destruct (f c); cbn; rewrite IH by exact Hlen; reflexivity.
Qed.

(** Running sums of non-negative lengths that stay below [2^63]: no
    element wraps, the sequence does not decrease, and its last element
    is its largest. *)
Lemma cumsum_from_bounds :
  forall (a : list Z) (acc : Z),
    0 <= acc ->
    Forall (fun n => 0 <= n) a ->
    acc + fold_right Z.add 0 a < 2 ^ 63 ->
    Forall (fun c => acc <= c <= acc + fold_right Z.add 0 a)
           (Np.cumsum_from acc a)
    /\ Stated.maximum (Np.cumsum_from acc a) = last (Np.cumsum_from acc a) 0.
Proof.
  induction a as [|x a IH]; intros acc Hacc Hpos Hsum; cbn [Np.cumsum_from].
  - split; [constructor | reflexivity].
  - inversion Hpos as [|? ? Hx Ha]; subst.
    cbn [fold_right] in Hsum |- *.
    assert (Hsum_a : 0 <= fold_right Z.add 0 a).
    { clear - Ha. induction Ha; cbn; lia. }
    rewrite wrap64_id by (unfold Np.in_int64; lia).
    destruct (IH (acc + x)) as [Hall Hmax]; [lia | exact Ha | lia |].
    split.
    + constructor; [lia|].
      eapply Forall_impl; [|exact Hall]. cbn. intros c Hc. lia.
    + cbn [Stated.maximum fold_right] in *.
      fold (Stated.maximum (Np.cumsum_from (acc + x) a)).
      rewrite Hmax.
      destruct (Np.cumsum_from (acc + x) a) as [|c cs] eqn:E.
      * cbn. lia.
      * assert (Hin : In (last (c :: cs) 0) (c :: cs)).
        { destruct (exists_last (l := c :: cs)) as [l' [z Hz]];
            [discriminate|].
          rewrite Hz, last_last. apply in_or_app. right. left. reflexivity. }
        rewrite Forall_forall in Hall. specialize (Hall _ Hin).
        change (last (acc + x :: c :: cs) 0) with (last (c :: cs) 0).
        lia.
Qed.

End NpFacts.

(** ** The learning-curve computation *)

Module LearningCurve.

Import Plot.

Lemma last_cons_default {A : Type} :
  forall (l : list A) (x d : A), last (x :: l) d = last l x.
Proof.
  induction l as [|y l IH]; intros x d; [reflexivity|].
  change (last (x :: y :: l) d) with (last (y :: l) d).
  rewrite (IH y d), (IH y x). reflexivity.
Qed.

Lemma steps_show_multiples (last : Z) :
  0 <= last < 2 ^ 63 - 1 ->
  steps_show last = Stated.multiples_of_x_tick (Z.to_nat (last / x_tick)).
Proof.
  intros Hlast. unfold steps_show, Stated.multiples_of_x_tick.
  rewrite NpFacts.wrap64_id by (unfold Np.in_int64; lia).
  rewrite NpFacts.arange_multiples by (unfold x_tick; lia).
  replace (last + 1 - 1) with last by lia. reflexivity.
Qed.

(** C2. The scenario of the spec: returns [1.0, 2.0, 3.0] with lengths
    [1000, 1000, 1000] give the cumulative lengths [1000, 2000, 3000]
    and the sample axis [1000, 2000, 3000]; the window at 1000 is
    empty and the sample is skipped, the window at 2000 holds the
    return recorded at 1000 and averages to 1.0, the window at 3000
    holds the returns recorded at 1000 and 2000 and averages to 1.5. *)
Theorem scenario_three_episodes :
  let copied := mkShared false [1; 2; 3]%float [1000; 1000; 1000] in
  let returns := episodic_returns copied in
  let cum := cum_episode_lengths 2048 copied in
  cum = [1000; 2000; 3000]
  /\ Np.last_item cum = Ok 3000
  /\ steps_show 3000 = [1000; 2000; 3000]
  /\ rets_in_window returns cum 0 = Ok []
  /\ window_step returns cum [] 0 = Ok []
  /\ rets_in_window returns cum 1 = Ok [1%float]
  /\ window_step returns cum [] 1 = Ok [1%float]
  /\ rets_in_window returns cum 2 = Ok [1%float; 2%float]
  /\ window_step returns cum [1%float] 2 = Ok [1%float; 1.5%float]
  /\ averaged_returns returns cum 3000 = Ok [1%float; 1.5%float].
Proof.
  cbv zeta. repeat split; vm_compute; reflexivity.
Qed.

(** C3. With stride 1000 the sample axis is 1000, 2000, ... up to the
    largest multiple of 1000 that does not exceed the largest
    cumulative length, which is the last one: the endpoint is
    included. Episode lengths are non-negative and their total stays
    in [int64]. *)
Theorem sample_axis_multiples_of_stride
        (batch_size : Z) (copied : SharedReturns) (last : Z) :
  Forall (fun n => 0 <= n) (ep_lens batch_size copied) ->
  fold_right Z.add 0 (ep_lens batch_size copied) < 2 ^ 63 - 1 ->
  Np.last_item (cum_episode_lengths batch_size copied) = Ok last ->
  last = Stated.maximum (cum_episode_lengths batch_size copied)
  /\ steps_show last
     = map (fun k => 1000 * Z.of_nat k)
           (seq 1 (Z.to_nat
                     (Stated.maximum (cum_episode_lengths batch_size copied)
                      / 1000))).
Proof.
  intros Hpos Hsum Hlast.
  unfold cum_episode_lengths, Np.cumsum in *.
  destruct (NpFacts.cumsum_from_bounds (ep_lens batch_size copied) 0)
    as [Hall Hmax]; [lia | exact Hpos | lia |].
  destruct (Np.cumsum_from 0 (ep_lens batch_size copied)) as [|c cs] eqn:E.
  - discriminate Hlast.
  - rewrite NpFacts.last_item_cons in Hlast. injection Hlast as Hlast.
    rewrite last_cons_default in Hmax.
    assert (Hin : In last (c :: cs)).
    { subst last. clear. revert c.
      induction cs as [|y cs IH]; intros c; [left; reflexivity|].
      rewrite last_cons_default. right. apply IH. }
    rewrite Forall_forall in Hall. specialize (Hall _ Hin).
    split; [congruence|].
    rewrite Hmax, Hlast.
    rewrite steps_show_multiples by lia. reflexivity.
Qed.

Lemma sample_axis_multiples_of_stride_witness :
  let copied := mkShared false [1; 2; 3]%float [1000; 1500; 1000] in
  3500 = Stated.maximum (cum_episode_lengths 2048 copied)
  /\ steps_show 3500 = [1000; 2000; 3000].
Proof.
  cbv zeta.
  destruct (sample_axis_multiples_of_stride 2048
              (mkShared false [1; 2; 3]%float [1000; 1500; 1000]) 3500)
    as [Hmax Haxis].
  - cbn. repeat constructor; lia.
  - cbn. lia.
  - reflexivity.
  - split; [exact Hmax|]. rewrite Haxis. reflexivity.
Defined.

(** C4. When the snapshot holds no episode lengths and [n] returns, the
    step sequence is [batch_size * [0, 1, ..., n-1]], so the cumulative
    sum starts at 0. The products stay in [int64]. *)
Theorem fallback_lengths_are_batch_multiples
        (batch_size : Z) (copied : SharedReturns) :
  episodic_lengths copied = [] ->
  Np.in_int64 (batch_size * Z.of_nat (length (episodic_returns copied))) ->
  ep_lens batch_size copied
  = map (fun k => batch_size * Z.of_nat k)
        (seq 0 (length (episodic_returns copied)))
  /\ (episodic_returns copied <> [] ->
      hd_error (cum_episode_lengths batch_size copied) = Some 0).
Proof.
  intros Hempty Hrange. unfold cum_episode_lengths, ep_lens.
  rewrite Hempty, NpFacts.arange_from_zero.
  unfold Np.scale. rewrite map_map.
  assert (Heq : map (fun k => Np.wrap64 (batch_size * Z.of_nat k))
                    (seq 0 (length (episodic_returns copied)))
                = map (fun k => batch_size * Z.of_nat k)
                      (seq 0 (length (episodic_returns copied)))).
  { apply map_ext_in. intros k Hk. apply in_seq in Hk.
    apply NpFacts.wrap64_id. unfold Np.in_int64 in *. nia. }
  rewrite Heq. split; [reflexivity|].
  intros Hne. destruct (episodic_returns copied) as [|r rs];
    [contradiction|].
  cbn. rewrite Z.mul_0_r. reflexivity.
Qed.

Lemma fallback_lengths_are_batch_multiples_witness :
  let copied := mkShared false [1; 2; 3]%float [] in
  ep_lens 2048 copied = [0; 2048; 4096]
  /\ hd_error (cum_episode_lengths 2048 copied) = Some 0.
Proof.
  cbv zeta.
  destruct (fallback_lengths_are_batch_multiples 2048
              (mkShared false [1; 2; 3]%float [])) as [Hlens Hhead].
  - reflexivity.
  - unfold Np.in_int64. cbn. lia.
  - split; [rewrite Hlens; reflexivity | apply Hhead; discriminate].
Defined.

(** The window of sample [i] holds the returns recorded strictly
    between [max(0, s - 5000)] and [s = 1000 * (i + 1)]. *)
Lemma rets_in_window_clamped (returns : list float) (cum : list Z) (i : nat) :
  length returns = length cum ->
  rets_in_window returns cum i
  = Ok (Stated.window_clamped returns cum (Stated.sample_point i)).
Proof.
  intros Hlen.
  unfold rets_in_window, window_mask, Np.gt, Np.lt, Np.bool_index.
  rewrite NpFacts.mask_mul_map, length_map, Hlen, Nat.eqb_refl.
  rewrite NpFacts.select_map_filter by exact Hlen. reflexivity.
Qed.

Lemma contributes_any (returns : list float) (cum : list Z) (i : nat) :
  length returns = length cum ->
  Stated.contributes returns cum i
  = Np.any (Stated.window_clamped returns cum (Stated.sample_point i)).
Proof.
  intros Hlen. unfold Stated.contributes.
  rewrite rets_in_window_clamped by exact Hlen. reflexivity.
Qed.

(** The loop appends, for each contributing sample in turn, the mean
    of its window. *)
Lemma window_loop_contributing (returns : list float) (cum : list Z) :
  length returns = length cum ->
  forall (range : list nat) (rets : list float),
    window_loop returns cum range rets
    = Ok (rets
          ++ map (fun i => Np.mean (Stated.window_clamped
                                      returns cum (Stated.sample_point i)))
                 (filter (Stated.contributes returns cum) range)).
Proof.
  intros Hlen.
  induction range as [|i range IH]; intros rets; cbn [window_loop filter map].
  - rewrite app_nil_r. reflexivity.
  - unfold window_step.
    rewrite contributes_any, rets_in_window_clamped by exact Hlen.
    cbn [rbind].
    destruct (Np.any _); cbn [rbind map]; rewrite IH.
    + rewrite <- app_assoc. reflexivity.
    + reflexivity.
Qed.

Lemma averaged_returns_contributing
      (returns : list float) (cum : list Z) (last : Z) :
  length returns = length cum ->
  averaged_returns returns cum last
  = Ok (map (fun i => Np.mean (Stated.window_clamped
                                 returns cum (Stated.sample_point i)))
            (Stated.contributing returns cum last)).
Proof.
  intros Hlen. unfold averaged_returns, Stated.contributing.
  rewrite window_loop_contributing by exact Hlen. reflexivity.
Qed.

(** C1, as the code has it. For the sample point [s] of index [i], the
    window is exactly the recorded returns whose cumulative length lies
    strictly between [max(0, s - 5000)] and [s]; a sample whose window
    is empty leaves [rets] as it is; a sample whose window holds a
    non-zero return appends the mean of exactly that window. *)
Theorem window_between_clamped_bounds
        (returns : list float) (cum : list Z) (i : nat) (rets : list float) :
  length returns = length cum ->
  let s := Stated.sample_point i in
  let w := Stated.window_clamped returns cum s in
  rets_in_window returns cum i = Ok w
  /\ (forall r, In r w <->
                exists c, In (r, c) (combine returns cum)
                          /\ Z.max 0 (s - 5000) < c < s)
  /\ (w = [] -> window_step returns cum rets i = Ok rets)
  /\ (Np.any w = true ->
      window_step returns cum rets i = Ok (rets ++ [Np.mean w])).
Proof.
  intros Hlen s w.
  assert (Hw : rets_in_window returns cum i = Ok w)
    by (apply rets_in_window_clamped; exact Hlen).
  split; [exact Hw|]. split; [|split].
  - intros r. unfold w, Stated.window_clamped, Stated.returns_between.
    clear Hw w. subst s. set (s := Stated.sample_point i).
    rewrite in_map_iff. split.
    + intros [[r' c] [Hr Hin]]. cbn [fst] in Hr. subst r'.
      apply filter_In in Hin. destruct Hin as [Hin Hc]. cbn [snd] in Hc.
      exists c. split; [exact Hin|].
      unfold window_size_steps in Hc.
      apply andb_true_iff in Hc. destruct Hc as [Hlo Hhi].
      apply Z.ltb_lt in Hlo. apply Z.ltb_lt in Hhi. lia.
    + intros [c [Hin Hc]]. exists (r, c). split; [reflexivity|].
      apply filter_In. split; [exact Hin|]. cbn [snd].
      unfold window_size_steps.
      apply andb_true_iff. split; apply Z.ltb_lt; lia.
  - intros Hempty. unfold window_step. rewrite Hw, Hempty. reflexivity.
  - intros Hany. unfold window_step. rewrite Hw. cbn [rbind].
    rewrite Hany. reflexivity.
Qed.

Lemma window_between_clamped_bounds_witness :
  let returns := [1; 2; 3]%float in
  let cum := [1000; 2000; 3000] in
  rets_in_window returns cum 2 = Ok [1; 2]%float
  /\ window_step returns cum [1%float] 2 = Ok [1; 1.5]%float
  /\ window_step returns cum [] 0 = Ok [].
Proof.
  cbv zeta.
  destruct (window_between_clamped_bounds
              [1; 2; 3]%float [1000; 2000; 3000] 2 [1%float] eq_refl)
    as [Hw [_ [_ Hmean]]].
  destruct (window_between_clamped_bounds
              [1; 2; 3]%float [1000; 2000; 3000] 0 [] eq_refl)
    as [_ [_ [Hskip _]]].
  split; [rewrite Hw; reflexivity|]. split.
  - rewrite Hmean; reflexivity.
  - apply Hskip. reflexivity.
Defined.

(** C1, as the spec words it, fails where a cumulative length is 0,
    which the fallback lengths always start with: three returns without
    recorded lengths sit at 0, 2048 and 6144. At the sample point 1000
    the interval from -4000 to 1000 holds the first return, yet the
    code finds no return and skips the sample; at 3000 the interval
    from -2000 to 3000 holds the first two returns, the code averages
    the second alone. *)
Lemma window_as_specified_counterexample :
  let copied := mkShared false [1; 2; 3]%float [] in
  let returns := episodic_returns copied in
  let cum := cum_episode_lengths 2048 copied in
  cum = [0; 2048; 6144]
  /\ steps_show 6144 = [1000; 2000; 3000; 4000; 5000; 6000]
  /\ Stated.window_as_specified returns cum 1000 = [1%float]
  /\ window_step returns cum [] 0 = Ok []
  /\ Stated.window_as_specified returns cum 3000 = [1; 2]%float
  /\ window_step returns cum [] 2 = Ok [2%float]
  /\ rets_in_window returns cum 2
     <> Ok (Stated.window_as_specified returns cum (Stated.sample_point 2)).
Proof.
  cbv zeta. repeat split; try (vm_compute; reflexivity).
  vm_compute. intros H. discriminate H.
Qed.

(** *** Where the averages are drawn *)

Lemma wrap64_range (z : Z) : Np.in_int64 (Np.wrap64 z).
Proof.
  unfold Np.in_int64, Np.wrap64.
  pose proof (Z.mod_pos_bound (z + 2 ^ 63) (2 ^ 64)). lia.
Qed.

(** The sample axis never has more than [2^63 / 1000] points. *)
Lemma steps_show_length (last : Z) :
  x_tick * Z.of_nat (length (steps_show last)) < 2 ^ 63.
Proof.
  unfold steps_show, Np.arange, x_tick.
  rewrite length_map, length_seq.
  pose proof (wrap64_range (last + 1)) as Hw. unfold Np.in_int64 in Hw.
  set (w := Np.wrap64 (last + 1)) in *.
  replace (w - 1000 + 1000 - 1) with (w - 1) by lia.
  pose proof (Z.mul_div_le (w - 1) 1000). lia.
Qed.

Lemma filter_length_bound {A : Type} (f : A -> bool) (l : list A) :
  (length (filter f l) <= length l)%nat.
Proof.
  induction l as [|x l IH]; cbn; [lia|].
  destruct (f x); cbn; lia.
Qed.

(** The [k]-th element kept by a filter over [a, a+1, ...] is at least
    [a + k], and more when an earlier element was dropped. *)
Lemma filter_seq_nth (f : nat -> bool) :
  forall (n a k i : nat),
    nth_error (filter f (seq a n)) k = Some i ->
    (a + k <= i)%nat
    /\ ((exists j, (a <= j < i)%nat /\ f j = false) -> (a + k < i)%nat).
Proof.
  induction n as [|n IH]; intros a k i Hnth; cbn [seq filter] in Hnth.
  - destruct k; discriminate Hnth.
  - destruct (f a) eqn:Hfa.
    + destruct k as [|k]; cbn [nth_error] in Hnth.
      * injection Hnth as <-. split; [lia|].
        intros [j [Hj _]]. lia.
      * destruct (IH _ _ _ Hnth) as [Hle Hlt]. split; [lia|].
        intros [j [Hj Hfj]].
        assert (j <> a) by congruence.
        assert (S a + k < i)%nat by (apply Hlt; exists j; split; [lia|exact Hfj]).
        lia.
    + destruct (IH _ _ _ Hnth) as [Hle _]. split; [lia|]. intros _. lia.
Qed.

Lemma curve_xdata_multiples (rets : list float) :
  x_tick * Z.of_nat (length rets) < 2 ^ 63 ->
  curve_xdata rets = Stated.multiples_of_x_tick (length rets).
Proof.
  intros Hbound. unfold curve_xdata, Stated.multiples_of_x_tick, Np.scale.
  rewrite NpFacts.arange_from_one, map_map.
  apply map_ext_in. intros k Hk. apply in_seq in Hk.
  apply NpFacts.wrap64_id. unfold Np.in_int64, x_tick in *. lia.
Qed.

(** [draw_curve] sets the x data of the line before anything can
    raise. *)
Lemma draw_curve_xdata (rets : list float) (p : Plotter) :
  hl11_xdata (fig (snd (draw_curve rets p))) = curve_xdata rets.
Proof.
  unfold draw_curve, bind, lift, hl11_set_xdata, ax2_set_xlim,
    hl11_set_ydata, ax2_set_ylim, with_fig, modify.
  cbn. destruct (Np.max rets); cbn; [|reflexivity].
  destruct (Np.min rets); cbn; reflexivity.
Qed.

(** C10. On a redraw the line gets the x coordinates
    [1000, 2000, ..., len(rets) * 1000], whichever samples contributed:
    the [k]-th average, computed for the sample point of index [i], is
    drawn at [1000 * (k + 1)], which is never beyond its sample point
    and strictly before it as soon as an earlier sample was skipped. *)
Theorem averages_drawn_at_consecutive_ticks
        (returns : list float) (cum : list Z) (last : Z)
        (rets : list float) :
  length returns = length cum ->
  averaged_returns returns cum last = Ok rets ->
  (forall p, hl11_xdata (fig (snd (draw_curve rets p)))
             = Stated.multiples_of_x_tick (length rets))
  /\ length (Stated.contributing returns cum last) = length rets
  /\ forall (k i : nat),
      nth_error (Stated.contributing returns cum last) k = Some i ->
      nth_error rets k
      = Some (Np.mean (Stated.window_clamped
                         returns cum (Stated.sample_point i)))
      /\ nth_error (curve_xdata rets) k = Some (x_tick * (Z.of_nat k + 1))
      /\ x_tick * (Z.of_nat k + 1) <= Stated.sample_point i
      /\ ((exists j, (j < i)%nat
                     /\ Stated.contributes returns cum j = false) ->
          x_tick * (Z.of_nat k + 1) < Stated.sample_point i).
Proof.
  intros Hlen Hrets.
  rewrite averaged_returns_contributing in Hrets by exact Hlen.
  injection Hrets as Hrets.
  assert (Hcount : length (Stated.contributing returns cum last) = length rets)
    by (rewrite <- Hrets, length_map; reflexivity).
  assert (Hbound : x_tick * Z.of_nat (length rets) < 2 ^ 63).
  { rewrite <- Hcount. unfold Stated.contributing.
    pose proof (filter_length_bound (Stated.contributes returns cum)
                  (seq 0 (length (steps_show last)))) as Hle.
    rewrite length_seq in Hle.
    pose proof (steps_show_length last). unfold x_tick in *. lia. }
  split; [|split; [exact Hcount|]].
  - intros p. rewrite draw_curve_xdata.
    apply curve_xdata_multiples. exact Hbound.
  - intros k i Hk.
    assert (Hklt : (k < length rets)%nat).
    { rewrite <- Hcount. apply nth_error_Some. congruence. }
    split; [|split].
    + rewrite <- Hrets. rewrite nth_error_map, Hk. reflexivity.
    + rewrite curve_xdata_multiples by exact Hbound.
      unfold Stated.multiples_of_x_tick.
      rewrite nth_error_map, nth_error_seq.
      apply Nat.ltb_lt in Hklt. rewrite Hklt. cbn [option_map].
      f_equal. lia.
    + unfold Stated.contributing in Hk.
      destruct (filter_seq_nth _ _ _ _ _ Hk) as [Hle Hlt].
      unfold Stated.sample_point, x_tick. split; [lia|].
      intros [j [Hj Hfj]].
      assert (0 + k < i)%nat by (apply Hlt; exists j; split; [lia|exact Hfj]).
      lia.
Qed.

Lemma averages_drawn_at_consecutive_ticks_witness :
  let returns := [1; 2; 3]%float in
  let cum := [1000; 2000; 3000] in
  Stated.contributing returns cum 3000 = [1%nat; 2%nat]
  /\ nth_error (curve_xdata [1; 1.5]%float) 0 = Some 1000
  /\ 1000 < Stated.sample_point 1.
Proof.
  cbv zeta. split; [reflexivity|].
  destruct (averages_drawn_at_consecutive_ticks
              [1; 2; 3]%float [1000; 2000; 3000] 3000 [1; 1.5]%float
              eq_refl eq_refl) as [_ [_ Hk]].
  destruct (Hk 0%nat 1%nat eq_refl) as [_ [Hx [_ Hlt]]].
  split; [exact Hx|].
  apply Hlt. exists 0%nat. split; [lia | reflexivity].
Defined.

End LearningCurve.

(** ** The drawing loop *)

Module Drawing.

Import Plot.
Import Stated.

Ltac run_plot :=
  unfold plot_iteration, draw_positions, refresh_learning_curve, end_of_turn,
    plot_learning_curve, draw_curve,
    hl1_set_xdata, hl1_set_ydata, hl2_set_xdata, hl2_set_ydata,
    ax1_set_xlim, ax1_set_ylim, ax1_set_title, ax1_reverse_xlim,
    ax1_reverse_ylim, hl11_set_xdata, hl11_set_ydata, ax2_set_xlim,
    ax2_set_ylim, set_old_size, incr_count, emit, with_fig, modify, gets,
    lift, ret, bind;
  cbn [fst snd fig old_size count effects deepcopy write_lock
       episodic_returns episodic_lengths].

Lemma draw_positions_ok (env : EnvReading) (p : Plotter) :
  draw_positions env p = (Ok tt, after_positions env p).
Proof. vm_compute. reflexivity. Qed.

Lemma after_positions_keeps (env : EnvReading) (p : Plotter) :
  old_size (after_positions env p) = old_size p
  /\ effects (after_positions env p) = effects p
  /\ learning_curve (after_positions env p) = learning_curve p.
Proof. repeat split. Qed.

Lemma end_of_turn_ok (p : Plotter) :
  end_of_turn p
  = (Ok tt,
     {| fig := fig p; old_size := old_size p; count := S (count p);
        effects := effects p ++ [Sleep 0.01%float; CanvasDraw; FlushEvents] |}).
Proof.
  run_plot. repeat rewrite <- app_assoc. reflexivity.
Qed.

Lemma plot_learning_curve_effects
      (batch_size : Z) (copied : SharedReturns) (p : Plotter) :
  effects (snd (plot_learning_curve batch_size copied p)) = effects p.
Proof.
  run_plot.
  destruct (Np.last_item _) as [last|e]; cbn; [|reflexivity].
  destruct (x_tick <=? last); cbn; [|reflexivity].
  destruct (averaged_returns _ _ _) as [rets|e]; cbn; [|reflexivity].
  destruct (Np.max rets); cbn; [|reflexivity].
  destruct (Np.min rets); cbn; reflexivity.
Qed.

Lemma refresh_learning_curve_effects
      (batch_size : Z) (shared : SharedReturns) (p : Plotter) :
  effects (snd (refresh_learning_curve batch_size shared p)) = effects p.
Proof.
  unfold refresh_learning_curve, bind, gets.
  destruct (negb _ && _).
  - apply plot_learning_curve_effects.
  - reflexivity.
Qed.

(** An iteration is the three parts in sequence; an exception of the
    second ends it. *)
Lemma plot_iteration_steps
      (batch_size : Z) (env : EnvReading) (shared : SharedReturns)
      (p : Plotter) :
  plot_iteration batch_size env shared p
  = match refresh_learning_curve batch_size shared (after_positions env p) with
    | (Ok _, p') => end_of_turn p'
    | (Raise e, p') => (Raise e, p')
    end.
Proof.
  unfold plot_iteration. unfold bind at 1.
  rewrite draw_positions_ok. unfold bind at 1.
  destruct (refresh_learning_curve _ _ _) as [[u|e] p']; reflexivity.
Qed.

Lemma plot_iteration_saved_files
      (batch_size : Z) (env : EnvReading) (shared : SharedReturns)
      (p : Plotter) :
  Stated.saved_files (snd (plot_iteration batch_size env shared p))
  = Stated.saved_files p.
Proof.
  rewrite plot_iteration_steps.
  pose proof (refresh_learning_curve_effects
                batch_size shared (after_positions env p)) as Heff.
  destruct (refresh_learning_curve _ _ _) as [[u|e] p']; cbn [snd] in *.
  - rewrite end_of_turn_ok. unfold Stated.saved_files. cbn [snd effects].
    rewrite filter_app, Heff. cbn. rewrite app_nil_r. reflexivity.
  - unfold Stated.saved_files. rewrite Heff. reflexivity.
Qed.

Lemma plot_loop_saved_files (batch_size : Z) :
  forall (obs : list Observation) (p : Plotter),
    Stated.saved_files (snd (plot_loop batch_size obs p))
    = Stated.saved_files p.
Proof.
  induction obs as [|o obs IH]; intros p; cbn [plot_loop]; [reflexivity|].
  destruct (plot_running_value o =? 0); [reflexivity|].
  pose proof (plot_iteration_saved_files
                batch_size (env_now o) (shared_now o) p) as Hit.
  destruct (plot_iteration _ _ _ _) as [[u|e] p']; cbn [snd] in *.
  - rewrite IH. exact Hit.
  - exact Hit.
Qed.

(** A loop that is still running after [before] goes on with what
    follows. *)
Lemma plot_loop_app (batch_size : Z) (rest : list Observation) :
  forall (before : list Observation) (p0 p : Plotter),
    plot_loop batch_size before p0 = (Running, p) ->
    plot_loop batch_size (before ++ rest) p0 = plot_loop batch_size rest p.
Proof.
  induction before as [|o before IH]; intros p0 p Hrun; cbn [plot_loop app] in *.
  - injection Hrun as <-. reflexivity.
  - destruct (plot_running_value o =? 0); [discriminate Hrun|].
    destruct (plot_iteration _ _ _ _) as [[u|e] p'].
    + apply IH. exact Hrun.
    + discriminate Hrun.
Qed.

(** Whether the test of line 158 passes on the snapshot. *)
Lemma refresh_skipped
      (batch_size : Z) (shared : SharedReturns) (p : Plotter) :
  write_lock (deepcopy shared) = true
  \/ (length (episodic_returns (deepcopy shared)) <= old_size p)%nat ->
  refresh_learning_curve batch_size shared p = (Ok tt, p).
Proof.
  intros Hskip. unfold refresh_learning_curve, bind, gets, ret.
  destruct Hskip as [Hlock|Hsize].
  - rewrite Hlock. reflexivity.
  - apply Nat.ltb_ge in Hsize. rewrite Hsize, andb_false_r. reflexivity.
Qed.

Lemma refresh_due
      (batch_size : Z) (shared : SharedReturns) (p : Plotter) :
  write_lock (deepcopy shared) = false ->
  (old_size p < length (episodic_returns (deepcopy shared)))%nat ->
  refresh_learning_curve batch_size shared p
  = plot_learning_curve batch_size (deepcopy shared) p.
Proof.
  intros Hlock Hsize. unfold refresh_learning_curve, bind, gets.
  apply Nat.ltb_lt in Hsize. rewrite Hlock, Hsize. reflexivity.
Qed.

(** C6. In an iteration the learning curve (the data of the line and
    the limits of its axes) changes only when, in the snapshot taken
    by [deepcopy], the write lock is off and there are more returns
    than at the last redraw; otherwise the iteration completes and
    leaves the curve and the remembered count as they were. *)
Theorem learning_curve_redrawn_only_when_due
        (batch_size : Z) (env : EnvReading) (shared : SharedReturns)
        (p : Plotter) :
  let copied := deepcopy shared in
  let after := plot_iteration batch_size env shared p in
  (learning_curve (snd after) <> learning_curve p ->
   write_lock copied = false
   /\ (old_size p < length (episodic_returns copied))%nat)
  /\ (write_lock copied = true
      \/ (length (episodic_returns copied) <= old_size p)%nat ->
      fst after = Ok tt
      /\ learning_curve (snd after) = learning_curve p
      /\ old_size (snd after) = old_size p).
Proof.
  intros copied after.
  assert (Hskip : write_lock copied = true
                  \/ (length (episodic_returns copied) <= old_size p)%nat ->
                  fst after = Ok tt
                  /\ learning_curve (snd after) = learning_curve p
                  /\ old_size (snd after) = old_size p).
  { intros Hcond. unfold after.
    rewrite plot_iteration_steps, refresh_skipped by exact Hcond.
    rewrite end_of_turn_ok. repeat split. }
  split; [|exact Hskip].
  intros Hchanged.
  destruct (write_lock copied) eqn:Hlock.
  - exfalso. apply Hchanged. apply Hskip. left. reflexivity.
  - split; [reflexivity|].
    destruct (Nat.lt_ge_cases (old_size p) (length (episodic_returns copied)))
      as [Hlt|Hge]; [exact Hlt|].
    exfalso. apply Hchanged. apply Hskip. right. exact Hge.
Qed.

Lemma learning_curve_redrawn_only_when_due_witness :
  let shared := mkShared false [1; 2; 3]%float [1000; 1000; 1000] in
  let locked := mkShared true [1; 2; 3]%float [1000; 1000; 1000] in
  let env := mkEnv 1 2 3 4 5 in
  let p := setup (mkShared false [] []) in
  (write_lock (deepcopy shared) = false
   /\ (old_size p < length (episodic_returns (deepcopy shared)))%nat)
  /\ learning_curve (snd (plot_iteration 2048 env locked p))
     = learning_curve p.
Proof.
  cbv zeta. split.
  - apply (learning_curve_redrawn_only_when_due
             2048 (mkEnv 1 2 3 4 5)
             (mkShared false [1; 2; 3]%float [1000; 1000; 1000])
             (setup (mkShared false [] []))).
    vm_compute. intros H. discriminate H.
  - apply (learning_curve_redrawn_only_when_due
             2048 (mkEnv 1 2 3 4 5)
             (mkShared true [1; 2; 3]%float [1000; 1000; 1000])
             (setup (mkShared false [] []))).
    left. reflexivity.
Defined.

(** C7. Once the flag reads 0 at a loop test, with the loop still
    running after the turns before it, the function returns having
    written one file, [tag + ".png"], cropped to the extent of the
    second subplot expanded by the factor 1.1 in each dimension. *)
Theorem one_figure_saved_when_flag_clears
        (window_extent : Figure -> Mpl.Bbox) (tag : string) (batch_size : Z)
        (shared_at_start : SharedReturns)
        (before : list Observation) (o : Observation)
        (rest : list Observation) (p : Plotter) :
  plot_loop batch_size before (setup shared_at_start) = (Running, p) ->
  plot_running_value o = 0 ->
  let saved :=
    Savefig (tag ++ ".png")
            (Mpl.expanded (window_extent (fig p)) 1.1%float 1.1%float) in
  let final := plot_dxl_reacher window_extent tag batch_size shared_at_start
                                (before ++ o :: rest) in
  fst final = Returned
  /\ fig (snd final) = fig p
  /\ effects (snd final) = effects p ++ [saved]
  /\ Stated.saved_files (snd final) = [saved].
Proof.
  intros Hrun Hflag saved final. unfold final, plot_dxl_reacher.
  rewrite (plot_loop_app batch_size (o :: rest) before _ p Hrun).
  cbn [plot_loop]. rewrite Hflag. cbn.
  repeat split.
  unfold Stated.saved_files. cbn [effects].
  rewrite filter_app.
  pose proof (plot_loop_saved_files batch_size before (setup shared_at_start))
    as Hnone.
  rewrite Hrun in Hnone. unfold Stated.saved_files in Hnone.
  cbn [snd] in Hnone. rewrite Hnone. reflexivity.
Qed.

Lemma one_figure_saved_when_flag_clears_witness :
  let extent := fun _ : Figure => Mpl.mkBbox 0 0 10 20 in
  let env := mkEnv 1 2 3 4 5 in
  let shared := mkShared false [1; 2; 3]%float [1000; 1000; 1000] in
  let final := plot_dxl_reacher extent "1541275200.0" 2048
                 (mkShared false [] [])
                 [mkObs 1 env shared; mkObs 0 env shared] in
  fst final = Returned
  /\ Stated.saved_files (snd final)
     = [Savefig "1541275200.0.png"
                (Mpl.expanded (Mpl.mkBbox 0 0 10 20) 1.1%float 1.1%float)].
Proof.
  cbv zeta.
  pose (env := mkEnv 1 2 3 4 5).
  pose (shared := mkShared false [1; 2; 3]%float [1000; 1000; 1000]).
  destruct (one_figure_saved_when_flag_clears
              (fun _ : Figure => Mpl.mkBbox 0 0 10 20) "1541275200.0" 2048
              (mkShared false [] [])
              [mkObs 1 env shared] (mkObs 0 env shared) []
              (snd (plot_loop 2048 [mkObs 1 env shared]
                              (setup (mkShared false [] [])))))
    as [Hret [_ [_ Hsaved]]].
  - vm_compute. reflexivity.
  - reflexivity.
  - split; [exact Hret | exact Hsaved].
Defined.

(** *** The redraw that raises *)

Lemma filter_none {A : Type} (f : A -> bool) (l : list A) :
  (forall x, In x l -> f x = false) -> filter f l = [].
Proof.
  induction l as [|x l IH]; intros Hall; cbn; [reflexivity|].
  rewrite (Hall x) by (left; reflexivity).
  apply IH. intros y Hy. apply Hall. right. exact Hy.
Qed.

Lemma any_false (w : list float) :
  (forall r, In r w -> Np.truthy r = false) -> Np.any w = false.
Proof.
  intros Hall. unfold Np.any.
  destruct (existsb Np.truthy w) eqn:E; [|reflexivity].
  apply existsb_exists in E. destruct E as [r [Hin Hr]].
  rewrite (Hall r Hin) in Hr. discriminate Hr.
Qed.

(** A window of returns that are all [0.0] does not contribute, empty
    or not: the test is on the truth value of the returns. *)
Lemma zero_returns_never_contribute
      (returns : list float) (cum : list Z) (i : nat) :
  length returns = length cum ->
  (forall r, In r returns -> Np.truthy r = false) ->
  Stated.contributes returns cum i = false.
Proof.
  intros Hlen Hzero.
  rewrite LearningCurve.contributes_any by exact Hlen.
  apply any_false. intros r Hin.
  unfold Stated.window_clamped, Stated.returns_between in Hin.
  apply in_map_iff in Hin. destruct Hin as [[r' c] [Hr Hin]].
  cbn [fst] in Hr. subst r'.
  apply filter_In in Hin. destruct Hin as [Hin _].
  apply Hzero. eapply in_combine_l. exact Hin.
Qed.

Lemma no_contribution_no_average
      (returns : list float) (cum : list Z) (last : Z) :
  length returns = length cum ->
  (forall i, (i < length (steps_show last))%nat ->
             Stated.contributes returns cum i = false) ->
  averaged_returns returns cum last = Ok [].
Proof.
  intros Hlen Hnone.
  rewrite LearningCurve.averaged_returns_contributing by exact Hlen.
  unfold Stated.contributing.
  rewrite filter_none; [reflexivity|].
  intros i Hi. apply in_seq in Hi. apply Hnone. lia.
Qed.

Lemma plot_learning_curve_raises
      (batch_size : Z) (copied : SharedReturns) (p : Plotter) (last : Z) :
  Np.last_item (cum_episode_lengths batch_size copied) = Ok last ->
  x_tick <= last ->
  averaged_returns (episodic_returns copied)
                   (cum_episode_lengths batch_size copied) last = Ok [] ->
  fst (plot_learning_curve batch_size copied p) = Raise ValueError.
Proof.
  intros Hlast Hguard Hrets.
  unfold plot_learning_curve, bind, lift, set_old_size, modify.
  rewrite Hlast. apply Z.leb_le in Hguard. rewrite Hguard, Hrets.
  reflexivity.
Qed.

(** C9. A snapshot that triggers a redraw and passes the guard on the
    total of steps, but in which no sample window contributes an
    average, leaves [rets] empty; [np.max] of it raises [ValueError],
    the iteration raises and the loop ends with the process dead. A
    window contributes by the truth value of its returns, so windows
    that hold only [0.0] count as not contributing. *)
Theorem plotter_dies_when_no_window_contributes
        (batch_size : Z) (env : EnvReading) (shared : SharedReturns)
        (p : Plotter) (last : Z) :
  let copied := deepcopy shared in
  let returns := episodic_returns copied in
  let cum := cum_episode_lengths batch_size copied in
  write_lock copied = false ->
  (old_size p < length returns)%nat ->
  length returns = length cum ->
  Np.last_item cum = Ok last ->
  x_tick <= last ->
  (forall i, (i < length (steps_show last))%nat ->
             Stated.contributes returns cum i = false) ->
  averaged_returns returns cum last = Ok []
  /\ Np.max [] = Raise ValueError
  /\ fst (plot_iteration batch_size env shared p) = Raise ValueError
  /\ forall (flag : Z) (rest : list Observation),
      flag <> 0 ->
      fst (plot_loop batch_size (mkObs flag env shared :: rest) p)
      = Died ValueError.
Proof.
  intros copied returns cum Hlock Hsize Hlen Hlast Hguard Hnone.
  assert (Hrets : averaged_returns returns cum last = Ok [])
    by (apply no_contribution_no_average; assumption).
  assert (Hraise : fst (plot_iteration batch_size env shared p)
                   = Raise ValueError).
  { rewrite plot_iteration_steps.
    rewrite refresh_due by assumption.
    pose proof (plot_learning_curve_raises batch_size copied
                  (after_positions env p) last Hlast Hguard Hrets) as Hplc.
    fold copied.
    destruct (plot_learning_curve batch_size copied (after_positions env p))
      as [[u|e] p']; cbn [fst] in *; [discriminate Hplc | exact Hplc]. }
  split; [exact Hrets|]. split; [reflexivity|]. split; [exact Hraise|].
  intros flag rest Hflag. cbn [plot_loop plot_running_value env_now shared_now].
  apply Z.eqb_neq in Hflag. rewrite Hflag.
  destruct (plot_iteration batch_size env shared p) as [[u|e] p'];
    cbn [fst] in *; [discriminate Hraise|].
  injection Hraise as ->. reflexivity.
Qed.

Lemma plotter_dies_when_no_window_contributes_witness :
  let shared := mkShared false [0; 0; 0]%float [1000; 1000; 1000] in
  let env := mkEnv 1 2 3 4 5 in
  let p := setup (mkShared false [] []) in
  rets_in_window (episodic_returns shared)
                 (cum_episode_lengths 2048 shared) 2 = Ok [0; 0]%float
  /\ fst (plot_iteration 2048 env shared p) = Raise ValueError
  /\ fst (plot_loop 2048 [mkObs 1 env shared; mkObs 0 env shared] p)
     = Died ValueError.
Proof.
  cbv zeta. split; [reflexivity|].
  destruct (plotter_dies_when_no_window_contributes
              2048 (mkEnv 1 2 3 4 5)
              (mkShared false [0; 0; 0]%float [1000; 1000; 1000])
              (setup (mkShared false [] [])) 3000)
    as [_ [_ [Hit Hloop]]].
  - reflexivity.
  - cbn. lia.
  - reflexivity.
  - reflexivity.
  - unfold x_tick. lia.
  - intros i _. apply zero_returns_never_contribute; [reflexivity|].
    intros r Hin. cbn in Hin.
    destruct Hin as [<-|[<-|[<-|[]]]]; reflexivity.
  - split; [exact Hit|]. apply Hloop. lia.
Defined.

End Drawing.

(** ** The shutdown sequence of [main] *)

Module Shutdown.

Import Trainer.

(** C5. [main] ends with: the flag set to 0, a sleep of 2 seconds, the
    join of the plotting process, the close of the environment. The
    flag is set once and the process joined once, so the join never
    comes before the sleep that follows the flag. *)
Theorem join_only_after_grace_period (port id baud : PyValue) :
  (exists before,
      main port id baud
      = before ++ [plot_running_set 0; time_sleep 2; pp_join; env_close]
      /\ ~ In (plot_running_set 0) before
      /\ ~ In pp_join before)
  /\ forall (i j : nat),
      nth_error (main port id baud) i = Some (plot_running_set 0) ->
      nth_error (main port id baud) j = Some pp_join ->
      nth_error (main port id baud) (i + 1) = Some (time_sleep 2)
      /\ j = (i + 2)%nat
      /\ nth_error (main port id baud) (j + 1) = Some env_close.
Proof.
  split.
  - exists (firstn 12 (main port id baud)). split; [reflexivity|].
    split; cbn; intuition discriminate.
  - intros i j Hi Hj. unfold main in *.
    repeat (destruct i as [|i]; cbn [nth_error] in Hi; try discriminate Hi).
    repeat (destruct j as [|j]; cbn [nth_error] in Hj; try discriminate Hj).
    repeat split.
Qed.

Lemma join_only_after_grace_period_witness :
  nth_error (main PyNone (PyInt 1) (PyInt 1000000)) 13 = Some (time_sleep 2)
  /\ nth_error (main PyNone (PyInt 1) (PyInt 1000000)) 15 = Some env_close.
Proof.
  destruct (join_only_after_grace_period PyNone (PyInt 1) (PyInt 1000000))
    as [_ Horder].
  destruct (Horder 12%nat 14%nat eq_refl eq_refl) as [Hsleep [_ Hclose]].
  split; [exact Hsleep | exact Hclose].
Defined.

End Shutdown.

(** ** The command line *)

Module CommandLine.

Import Cli.
Import Stated.
Local Open Scope string_scope.



Section WithInt.

Variable python_int : string -> option Z.






End WithInt.

Lemma port_flag :
  parse_optional parser "--port"
  = Optional (store_action ["--port"] "port" type_str PyNone) "--port" None.
Proof. reflexivity. Qed.

Lemma id_flag :
  parse_optional parser "--id"
  = Optional (store_action ["--id"] "id" type_int (PyInt 1)) "--id" None.
Proof. reflexivity. Qed.

Lemma baud_flag :
  parse_optional parser "--baud"
  = Optional (store_action ["--baud"] "baud" type_int (PyInt 1000000))
             "--baud" None.
Proof. reflexivity. Qed.




End CommandLine.

(** ** More on the sample windows *)

Module Windows.

Import Plot.

Lemma window_mask_nth (cum : list Z) (i k : nat) :
  nth_error (window_mask cum i) k
  = option_map
      (fun c => (Z.max 0 (Stated.sample_point i - window_size_steps) <? c)
                && (c <? Stated.sample_point i))
      (nth_error cum k).
Proof.
  unfold window_mask, Np.gt, Np.lt.
  rewrite NpFacts.mask_mul_map, nth_error_map. reflexivity.
Qed.

Lemma window_mask_length (cum : list Z) (i : nat) :
  length (window_mask cum i) = length cum.
Proof.
  unfold window_mask, Np.gt, Np.lt.
  rewrite NpFacts.mask_mul_map, length_map. reflexivity.
Qed.

(** X1. When every cumulative length is positive the clamp at 0 never
    bites: the window of the sample point [s] is the returns recorded
    strictly between [s - 5000] and [s]. *)
Theorem window_unclamped_on_positive_lengths
        (returns : list float) (cum : list Z) (i : nat) :
  length returns = length cum ->
  Forall (fun c => 0 < c) cum ->
  rets_in_window returns cum i
  = Ok (Stated.window_as_specified returns cum (Stated.sample_point i)).
Proof.
  intros Hlen Hpos.
  rewrite LearningCurve.rets_in_window_clamped by exact Hlen.
  unfold Stated.window_clamped, Stated.window_as_specified,
    Stated.returns_between.
  f_equal. f_equal. apply filter_ext_in. intros [r c] Hin. cbn [snd].
  apply in_combine_r in Hin.
  rewrite Forall_forall in Hpos. specialize (Hpos c Hin).
  f_equal.
  destruct (Z.ltb_spec (Z.max 0 (Stated.sample_point i - window_size_steps)) c);
    destruct (Z.ltb_spec (Stated.sample_point i - window_size_steps) c);
    try reflexivity; lia.
Qed.

Lemma window_unclamped_on_positive_lengths_witness :
  rets_in_window [1; 2; 3]%float [1000; 2000; 3000] 2
  = Ok (Stated.window_as_specified [1; 2; 3]%float [1000; 2000; 3000] 3000).
Proof.
  apply (window_unclamped_on_positive_lengths
           [1; 2; 3]%float [1000; 2000; 3000] 2 eq_refl).
  repeat constructor.
Defined.

(** X2. A return is in the windows of at most five consecutive sample
    points: two samples whose windows both hold the return at position
    [k] are less than five apart. *)
Theorem return_in_at_most_five_windows (cum : list Z) (i j k : nat) :
  nth_error (window_mask cum i) k = Some true ->
  nth_error (window_mask cum j) k = Some true ->
  (j < i + 5)%nat.
Proof.
  rewrite !window_mask_nth.
  destruct (nth_error cum k) as [c|]; cbn [option_map]; [|discriminate].
  intros Hi Hj. injection Hi as Hi. injection Hj as Hj.
  apply andb_true_iff in Hi. destruct Hi as [_ Hi].
  apply andb_true_iff in Hj. destruct Hj as [Hj _].
  apply Z.ltb_lt in Hi. apply Z.ltb_lt in Hj.
  unfold Stated.sample_point, x_tick, window_size_steps in *. lia.
Qed.

Lemma return_in_at_most_five_windows_witness :
  nth_error (window_mask [1500; 2000; 3000] 1) 0 = Some true
  /\ nth_error (window_mask [1500; 2000; 3000] 5) 0 = Some true
  /\ nth_error (window_mask [1500; 2000; 3000] 6) 0 = Some false
  /\ (5 < 1 + 5)%nat.
Proof.
  split; [reflexivity|]. split; [reflexivity|]. split; [reflexivity|].
  apply (return_in_at_most_five_windows [1500; 2000; 3000] 1 5 0);
    reflexivity.
Defined.

(** X3. No sample point lies beyond the last cumulative length, and a
    window ends strictly before its sample point: an episode recorded at
    the last cumulative length or later, the newest one above all, is in
    no window of the redraw. *)
Theorem newest_return_in_no_window
        (cum : list Z) (last : Z) (i k : nat) (c : Z) :
  0 <= last < 2 ^ 63 - 1 ->
  (i < length (steps_show last))%nat ->
  nth_error cum k = Some c ->
  last <= c ->
  Stated.sample_point i <= last
  /\ nth_error (window_mask cum i) k = Some false.
Proof.
  intros Hlast Hi Hk Hc.
  rewrite LearningCurve.steps_show_multiples in Hi by exact Hlast.
  unfold Stated.multiples_of_x_tick in Hi.
  rewrite length_map, length_seq in Hi.
  assert (Hs : Stated.sample_point i <= last).
  { unfold Stated.sample_point, x_tick in *.
    assert (Hq : 1000 * (last / 1000) <= last)
      by (apply Z.mul_div_le; lia).
    set (q := last / 1000) in *. lia. }
  split; [exact Hs|].
  rewrite window_mask_nth, Hk. cbn [option_map]. f_equal.
  apply andb_false_iff. right. apply Z.ltb_ge. lia.
Qed.

Lemma newest_return_in_no_window_witness :
  nth_error (window_mask [1000; 2000; 3000] 2) 2 = Some false.
Proof.
  apply (newest_return_in_no_window [1000; 2000; 3000] 3000 2 2 3000);
    [lia | vm_compute; lia | reflexivity | lia].
Defined.

(** X4. The curve never reaches beyond the steps taken: the right end of
    the x axis, [len(rets) * 1000], is at most the last cumulative
    length. *)
Theorem curve_ends_within_total_steps
        (returns : list float) (cum : list Z) (last : Z) (rets : list float) :
  length returns = length cum ->
  0 <= last < 2 ^ 63 - 1 ->
  averaged_returns returns cum last = Ok rets ->
  (length rets <= length (steps_show last))%nat
  /\ Z.of_nat (length rets) * x_tick <= last.
Proof.
  intros Hlen Hlast Hrets.
  rewrite LearningCurve.averaged_returns_contributing in Hrets by exact Hlen.
  injection Hrets as <-. rewrite length_map.
  pose proof (LearningCurve.filter_length_bound
                (Stated.contributes returns cum)
                (seq 0 (length (steps_show last)))) as Hle.
  rewrite length_seq in Hle. fold (Stated.contributing returns cum last) in Hle.
  split; [exact Hle|].
  rewrite LearningCurve.steps_show_multiples in Hle by exact Hlast.
  unfold Stated.multiples_of_x_tick in Hle.
  rewrite length_map, length_seq in Hle.
  unfold x_tick in *.
  assert (Hq : 1000 * (last / 1000) <= last) by (apply Z.mul_div_le; lia).
  set (q := last / 1000) in *. lia.
Qed.

Lemma curve_ends_within_total_steps_witness :
  Z.of_nat (length [1; 1.5]%float) * x_tick <= 3000.
Proof.
  apply (curve_ends_within_total_steps
           [1; 2; 3]%float [1000; 2000; 3000] 3000 [1; 1.5]%float);
    [reflexivity | lia | reflexivity].
Defined.

(** *** The time axis without recorded lengths *)

Lemma triangular_step (k : nat) :
  Stated.triangular (S k) = Stated.triangular k + Z.of_nat (S k).
Proof.
  unfold Stated.triangular.
  replace (Z.of_nat (S k) * (Z.of_nat (S k) + 1))
    with (Z.of_nat k * (Z.of_nat k + 1) + Z.of_nat (S k) * 2) by lia.
  rewrite Z.div_add by lia. reflexivity.
Qed.

Lemma triangular_bounds (k : nat) :
  Z.of_nat k <= Stated.triangular k.
Proof.
  induction k as [|k IH]; [reflexivity|].
  rewrite triangular_step. lia.
Qed.

Lemma triangular_le (a c : nat) :
  (a <= c)%nat -> Stated.triangular a <= Stated.triangular c.
Proof.
  induction 1 as [|c Hle IH]; [lia|].
  rewrite triangular_step. lia.
Qed.

Lemma cumsum_from_triangular (b : Z) :
  0 <= b ->
  forall (n a : nat),
    b * Stated.triangular (a + n) < 2 ^ 63 ->
    Np.cumsum_from (b * (Stated.triangular a - Z.of_nat a))
                   (map (fun k => b * Z.of_nat k) (seq a n))
    = map (fun k => b * Stated.triangular (S k - 1) ) (seq a n).
Proof.
  intros Hb. induction n as [|n IH]; intros a Hbound; [reflexivity|].
  cbn [seq map Np.cumsum_from].
  assert (Hta : 0 <= Stated.triangular a)
    by (pose proof (triangular_bounds a); lia).
  assert (Hle : Stated.triangular a <= Stated.triangular (a + S n))
    by (apply triangular_le; lia).
  replace (b * (Stated.triangular a - Z.of_nat a) + b * Z.of_nat a)
    with (b * Stated.triangular a) by lia.
  rewrite NpFacts.wrap64_id by (unfold Np.in_int64; nia).
  replace (S a - 1)%nat with a by lia.
  f_equal.
  replace (b * Stated.triangular a)
    with (b * (Stated.triangular (S a) - Z.of_nat (S a)))
    by (rewrite triangular_step; f_equal; lia).
  apply IH. replace (S a + n)%nat with (a + S n)%nat by lia. exact Hbound.
Qed.

(** X5. Without recorded lengths the lengths are [batch_size * k], so the
    time axis is not [batch_size * k] but its running sum: the [k]-th
    return sits at [batch_size] times the [k]-th triangular number,
    [0, b, 3b, 6b, 10b, ...]. *)
Theorem fallback_axis_is_triangular (batch_size : Z) (copied : SharedReturns) :
  episodic_lengths copied = [] ->
  0 <= batch_size ->
  batch_size * Stated.triangular (length (episodic_returns copied)) < 2 ^ 63 ->
  cum_episode_lengths batch_size copied
  = map (fun k => batch_size * Stated.triangular k)
        (seq 0 (length (episodic_returns copied))).
Proof.
  intros Hempty Hb Hbound. unfold cum_episode_lengths, ep_lens.
  rewrite Hempty, NpFacts.arange_from_zero.
  unfold Np.scale, Np.cumsum. rewrite map_map.
  set (n := length (episodic_returns copied)) in *.
  assert (Hscale : map (fun k => Np.wrap64 (batch_size * Z.of_nat k)) (seq 0 n)
                   = map (fun k => batch_size * Z.of_nat k) (seq 0 n)).
  { apply map_ext_in. intros k Hk. apply in_seq in Hk.
    apply NpFacts.wrap64_id. unfold Np.in_int64.
    pose proof (triangular_bounds k).
    assert (Stated.triangular k <= Stated.triangular n)
      by (apply triangular_le; lia).
    nia. }
  rewrite Hscale.
  pose proof (cumsum_from_triangular batch_size Hb n 0%nat Hbound) as Hcum.
  replace (batch_size * (Stated.triangular 0 - Z.of_nat 0)) with 0 in Hcum
    by (unfold Stated.triangular; cbn; lia).
  rewrite Hcum.
  apply map_ext. intros k. replace (S k - 1)%nat with k by lia. reflexivity.
Qed.

Lemma fallback_axis_is_triangular_witness :
  cum_episode_lengths 2048 (mkShared false [1; 2; 3; 4]%float [])
  = [0; 2048; 6144; 12288].
Proof.
  rewrite (fallback_axis_is_triangular
             2048 (mkShared false [1; 2; 3; 4]%float []));
    [reflexivity | reflexivity | lia | vm_compute; reflexivity].
Defined.

End Windows.

(** ** More on the turns of the drawing loop *)

Module Turns.

Import Plot.
Import Stated.

Ltac run_curve :=
  unfold plot_learning_curve, draw_curve, hl11_set_xdata, hl11_set_ydata,
    ax2_set_xlim, ax2_set_ylim, set_old_size, with_fig, modify, lift, ret,
    bind;
  cbn [fst snd fig old_size count effects].

Lemma plot_learning_curve_old_size
      (batch_size : Z) (copied : SharedReturns) (p : Plotter) :
  old_size (snd (plot_learning_curve batch_size copied p))
  = length (episodic_returns copied).
Proof.
  run_curve.
  destruct (Np.last_item _) as [last|e]; cbn; [|reflexivity].
  destruct (x_tick <=? last); cbn; [|reflexivity].
  destruct (averaged_returns _ _ _) as [rets|e]; cbn; [|reflexivity].
  destruct (Np.max rets); cbn; [|reflexivity].
  destruct (Np.min rets); cbn; reflexivity.
Qed.

Lemma plot_learning_curve_count
      (batch_size : Z) (copied : SharedReturns) (p : Plotter) :
  count (snd (plot_learning_curve batch_size copied p)) = count p.
Proof.
  run_curve.
  destruct (Np.last_item _) as [last|e]; cbn; [|reflexivity].
  destruct (x_tick <=? last); cbn; [|reflexivity].
  destruct (averaged_returns _ _ _) as [rets|e]; cbn; [|reflexivity].
  destruct (Np.max rets); cbn; [|reflexivity].
  destruct (Np.min rets); cbn; reflexivity.
Qed.

(** A turn by the test of line 158. *)
Lemma plot_iteration_cases
      (batch_size : Z) (env : EnvReading) (shared : SharedReturns)
      (p : Plotter) :
  plot_iteration batch_size env shared p
  = if redraw_due shared p
    then match plot_learning_curve batch_size (deepcopy shared)
                                   (after_positions env p) with
         | (Ok _, p') => end_of_turn p'
         | (Raise e, p') => (Raise e, p')
         end
    else end_of_turn (after_positions env p).
Proof.
  rewrite Drawing.plot_iteration_steps.
  unfold refresh_learning_curve, bind, gets, ret, redraw_due.
  cbn [old_size after_positions].
  destruct (negb _ && _); reflexivity.
Qed.

Lemma old_size_after_turn
      (batch_size : Z) (env : EnvReading) (shared : SharedReturns)
      (p : Plotter) :
  old_size (snd (plot_iteration batch_size env shared p))
  = if redraw_due shared p then length (episodic_returns shared)
    else old_size p.
Proof.
  rewrite plot_iteration_cases.
  destruct (redraw_due shared p).
  - pose proof (plot_learning_curve_old_size
                  batch_size (deepcopy shared) (after_positions env p)) as H.
    destruct (plot_learning_curve _ _ _) as [[u|e] p']; cbn [snd] in *.
    + rewrite Drawing.end_of_turn_ok. exact H.
    + exact H.
  - rewrite Drawing.end_of_turn_ok. reflexivity.
Qed.

(** X6. The count the plotter remembers. After a turn [old_size] is the
    number of returns of the snapshot when the redraw was due, also when
    the redraw drew nothing or raised, and is unchanged otherwise; so it
    never decreases. *)
Theorem old_size_follows_due_snapshots
        (batch_size : Z) (env : EnvReading) (shared : SharedReturns)
        (p : Plotter) :
  old_size (snd (plot_iteration batch_size env shared p))
  = (if redraw_due shared p then length (episodic_returns shared)
     else old_size p)
  /\ (old_size p <= old_size (snd (plot_iteration batch_size env shared p)))%nat.
Proof.
  split; [apply old_size_after_turn|]. rewrite old_size_after_turn.
  destruct (redraw_due shared p) eqn:Hdue; [|lia].
  unfold redraw_due in Hdue. apply andb_true_iff in Hdue.
  destruct Hdue as [_ Hlt]. apply Nat.ltb_lt in Hlt. cbn in Hlt. lia.
Qed.

(** A turn that completes sleeps, draws and flushes once and counts one
    more; a turn that raises leaves no effect and does not count. *)
Lemma turn_effects_all_or_nothing
        (batch_size : Z) (env : EnvReading) (shared : SharedReturns)
        (p : Plotter) :
  let after := plot_iteration batch_size env shared p in
  match fst after with
  | Ok _ => effects (snd after) = effects p ++ turn_effects
            /\ count (snd after) = S (count p)
  | Raise _ => effects (snd after) = effects p
               /\ count (snd after) = count p
  end.
Proof.
  cbv zeta. rewrite plot_iteration_cases.
  destruct (redraw_due shared p).
  - pose proof (Drawing.plot_learning_curve_effects
                  batch_size (deepcopy shared) (after_positions env p)) as He.
    pose proof (plot_learning_curve_count
                  batch_size (deepcopy shared) (after_positions env p)) as Hc.
    destruct (plot_learning_curve _ _ _) as [[u|e] p']; cbn [snd fst] in *.
    + rewrite Drawing.end_of_turn_ok. cbn [fst snd effects count].
      rewrite He, Hc. split; reflexivity.
    + split; assumption.
  - rewrite Drawing.end_of_turn_ok. split; reflexivity.
Qed.

(** X7. A due redraw below the guard. When the redraw is due but fewer
    than 1000 steps have been taken in all, the turn completes, draws
    nothing on the learning curve and still remembers the number of
    returns of the snapshot. *)
Theorem short_run_is_counted_but_not_drawn
        (batch_size : Z) (env : EnvReading) (shared : SharedReturns)
        (p : Plotter) (last : Z) :
  redraw_due shared p = true ->
  Np.last_item (cum_episode_lengths batch_size (deepcopy shared)) = Ok last ->
  last < x_tick ->
  let after := plot_iteration batch_size env shared p in
  fst after = Ok tt
  /\ learning_curve (snd after) = learning_curve p
  /\ old_size (snd after) = length (episodic_returns shared).
Proof.
  intros Hdue Hlast Hshort. cbv zeta.
  rewrite plot_iteration_cases, Hdue.
  unfold plot_learning_curve, bind, lift, set_old_size, modify, ret.
  rewrite Hlast. apply Z.leb_gt in Hshort. rewrite Hshort.
  rewrite Drawing.end_of_turn_ok. repeat split.
Qed.

Lemma short_run_is_counted_but_not_drawn_witness :
  let shared := mkShared false [1; 2]%float [300; 400] in
  let after := plot_iteration 2048 (mkEnv 1 2 3 4 5) shared
                              (setup (mkShared false [] [])) in
  fst after = Ok tt
  /\ learning_curve (snd after) = ([], [], None, None)
  /\ old_size (snd after) = 2%nat.
Proof.
  cbv zeta.
  apply (short_run_is_counted_but_not_drawn
           2048 (mkEnv 1 2 3 4 5) (mkShared false [1; 2]%float [300; 400])
           (setup (mkShared false [] [])) 700);
    [reflexivity | reflexivity | unfold x_tick; lia].
Defined.

(** X8. Lengths out of step with returns. When the redraw is due, at
    least 1000 steps have been taken and the snapshot holds a number of
    lengths other than its number of returns, the first window raises
    [IndexError]: the turn raises, the learning curve is untouched and
    the loop ends with the process dead. *)
Theorem unequal_lengths_raise_index_error
        (batch_size : Z) (env : EnvReading) (shared : SharedReturns)
        (p : Plotter) (last : Z) :
  redraw_due shared p = true ->
  Np.last_item (cum_episode_lengths batch_size (deepcopy shared)) = Ok last ->
  x_tick <= last < 2 ^ 63 - 1 ->
  length (episodic_returns shared)
  <> length (cum_episode_lengths batch_size (deepcopy shared)) ->
  let after := plot_iteration batch_size env shared p in
  fst after = Raise IndexError
  /\ learning_curve (snd after) = learning_curve p
  /\ forall (flag : Z) (rest : list Observation),
      flag <> 0 ->
      fst (plot_loop batch_size (mkObs flag env shared :: rest) p)
      = Died IndexError.
Proof.
  intros Hdue Hlast Hrange Hlen. cbv zeta.
  assert (Hloop : averaged_returns
                    (episodic_returns (deepcopy shared))
                    (cum_episode_lengths batch_size (deepcopy shared)) last
                  = Raise IndexError).
  { unfold averaged_returns.
    rewrite LearningCurve.steps_show_multiples by (unfold x_tick in *; lia).
    unfold multiples_of_x_tick. rewrite length_map, length_seq.
    assert (Hq : 1 <= last / x_tick)
      by (unfold x_tick in *; apply Z.div_le_lower_bound; lia).
    destruct (Z.to_nat (last / x_tick)) as [|n] eqn:Hn; [lia|].
    cbn [seq window_loop]. unfold window_step, rets_in_window, Np.bool_index.
    rewrite Windows.window_mask_length.
    apply Nat.eqb_neq in Hlen. cbn [deepcopy episodic_returns] in *.
    rewrite Hlen. reflexivity. }
  assert (Hturn :
            plot_iteration batch_size env shared p
            = (Raise IndexError,
               snd (set_old_size (length (episodic_returns shared))
                                 (after_positions env p)))).
  { rewrite plot_iteration_cases, Hdue.
    unfold plot_learning_curve, bind, lift.
    cbn [set_old_size modify deepcopy episodic_returns] in *.
    rewrite Hlast. destruct Hrange as [Hguard _].
    apply Z.leb_le in Hguard. rewrite Hguard, Hloop. reflexivity. }
  rewrite Hturn. split; [reflexivity|]. split; [reflexivity|].
  intros flag rest Hflag.
  cbn [plot_loop plot_running_value env_now shared_now].
  apply Z.eqb_neq in Hflag. rewrite Hflag, Hturn. reflexivity.
Qed.

Lemma unequal_lengths_raise_index_error_witness :
  let shared := mkShared false [1; 2; 3]%float [1000; 1000] in
  fst (plot_iteration 2048 (mkEnv 1 2 3 4 5) shared
                      (setup (mkShared false [] [])))
  = Raise IndexError.
Proof.
  cbv zeta.
  apply (unequal_lengths_raise_index_error
           2048 (mkEnv 1 2 3 4 5) (mkShared false [1; 2; 3]%float [1000; 1000])
           (setup (mkShared false [] [])) 2000);
    [reflexivity | reflexivity | unfold x_tick; lia | cbn; lia].
Defined.





(** *** What a turn reads of the plotter *)

Lemma plot_learning_curve_reads_curve
      (batch_size : Z) (copied : SharedReturns) (p q : Plotter) :
  learning_curve p = learning_curve q ->
  fst (plot_learning_curve batch_size copied p)
  = fst (plot_learning_curve batch_size copied q)
  /\ learning_curve (snd (plot_learning_curve batch_size copied p))
     = learning_curve (snd (plot_learning_curve batch_size copied q)).
Proof.
  unfold learning_curve. intros H. injection H as Hx Hy Hxl Hyl.
  run_curve.
  destruct (Np.last_item _) as [last|e];
    cbn [fst snd fig hl11_xdata hl11_ydata ax2_xlim ax2_ylim];
    [|split; congruence].
  destruct (x_tick <=? last);
    cbn [fst snd fig hl11_xdata hl11_ydata ax2_xlim ax2_ylim];
    [|split; congruence].
  destruct (averaged_returns _ _ _) as [rets|e];
    cbn [fst snd fig hl11_xdata hl11_ydata ax2_xlim ax2_ylim];
    [|split; congruence].
  destruct (Np.max rets);
    cbn [fst snd fig hl11_xdata hl11_ydata ax2_xlim ax2_ylim];
    [|split; congruence].
  destruct (Np.min rets);
    cbn [fst snd fig hl11_xdata hl11_ydata ax2_xlim ax2_ylim];
    split; congruence.
Qed.

Lemma turn_reads_curve_and_count
      (batch_size : Z) (env env' : EnvReading) (shared : SharedReturns)
      (p q : Plotter) :
  learning_curve p = learning_curve q ->
  old_size p = old_size q ->
  fst (plot_iteration batch_size env shared p)
  = fst (plot_iteration batch_size env' shared q)
  /\ learning_curve (snd (plot_iteration batch_size env shared p))
     = learning_curve (snd (plot_iteration batch_size env' shared q))
  /\ old_size (snd (plot_iteration batch_size env shared p))
     = old_size (snd (plot_iteration batch_size env' shared q)).
Proof.
  intros Hcurve Hsize.
  assert (Hdue : redraw_due shared p = redraw_due shared q)
    by (unfold redraw_due; rewrite Hsize; reflexivity).
  split; [|split].
  - rewrite !plot_iteration_cases, <- Hdue.
    destruct (redraw_due shared p).
    + destruct (plot_learning_curve_reads_curve
                  batch_size (deepcopy shared)
                  (after_positions env p) (after_positions env' q) Hcurve)
        as [Hfst _].
      destruct (plot_learning_curve _ _ (after_positions env p))
        as [[[]|e] p1];
        destruct (plot_learning_curve _ _ (after_positions env' q))
        as [[[]|e'] q1]; cbn [fst] in Hfst; try discriminate Hfst.
      * rewrite !Drawing.end_of_turn_ok. reflexivity.
      * exact Hfst.
    + rewrite !Drawing.end_of_turn_ok. reflexivity.
  - rewrite !plot_iteration_cases, <- Hdue.
    destruct (redraw_due shared p).
    + destruct (plot_learning_curve_reads_curve
                  batch_size (deepcopy shared)
                  (after_positions env p) (after_positions env' q) Hcurve)
        as [Hfst Hsnd].
      destruct (plot_learning_curve _ _ (after_positions env p))
        as [[[]|e] p1];
        destruct (plot_learning_curve _ _ (after_positions env' q))
        as [[[]|e'] q1]; cbn [fst snd] in *; try discriminate Hfst.
      * rewrite !Drawing.end_of_turn_ok. exact Hsnd.
      * exact Hsnd.
    + rewrite !Drawing.end_of_turn_ok. exact Hcurve.
  - rewrite !old_size_after_turn, <- Hdue, Hsize. reflexivity.
Qed.



(** X11. A locked snapshot delays a redraw and loses nothing. A turn on a
    snapshot with the write lock set leaves the remembered count alone,
    so the next turn on an unlocked snapshot ends and draws exactly as
    it would have without the locked turn. *)
Theorem locked_turn_only_delays
        (batch_size : Z) (env env' : EnvReading)
        (locked shared : SharedReturns) (p : Plotter) :
  write_lock locked = true ->
  let p' := snd (plot_iteration batch_size env locked p) in
  fst (plot_iteration batch_size env locked p) = Ok tt
  /\ fst (plot_iteration batch_size env' shared p')
     = fst (plot_iteration batch_size env' shared p)
  /\ learning_curve (snd (plot_iteration batch_size env' shared p'))
     = learning_curve (snd (plot_iteration batch_size env' shared p)).
Proof.
  intros Hlock. cbv zeta.
  assert (Hturn : plot_iteration batch_size env locked p
                  = end_of_turn (after_positions env p)).
  { rewrite plot_iteration_cases. unfold redraw_due.
    cbn [deepcopy write_lock]. rewrite Hlock. reflexivity. }
  rewrite Hturn, Drawing.end_of_turn_ok. cbn [fst snd].
  split; [reflexivity|].
  destruct (turn_reads_curve_and_count batch_size env' env' shared
              {| fig := fig (after_positions env p);
                 old_size := old_size (after_positions env p);
                 count := S (count (after_positions env p));
                 effects := effects (after_positions env p) ++
                            [Sleep 0.01%float; CanvasDraw; FlushEvents] |}
              p eq_refl eq_refl) as [Hfst [Hcurve _]].
  split; assumption.
Qed.

Lemma locked_turn_only_delays_witness :
  let locked := mkShared true [1; 2]%float [1000; 1000] in
  let shared := mkShared false [1; 2; 3]%float [1000; 1000; 1000] in
  let env := mkEnv 1 2 3 4 5 in
  let p := setup (mkShared false [] []) in
  learning_curve
    (snd (plot_iteration 2048 env shared
                         (snd (plot_iteration 2048 env locked p))))
  = learning_curve (snd (plot_iteration 2048 env shared p)).
Proof.
  cbv zeta.
  apply (locked_turn_only_delays
           2048 (mkEnv 1 2 3 4 5) (mkEnv 1 2 3 4 5)
           (mkShared true [1; 2]%float [1000; 1000])
           (mkShared false [1; 2; 3]%float [1000; 1000; 1000])
           (setup (mkShared false [] []))).
  reflexivity.
Defined.

Lemma turn_not_due
      (batch_size : Z) (env : EnvReading) (shared : SharedReturns)
      (p : Plotter) :
  redraw_due shared p = false ->
  fst (plot_iteration batch_size env shared p) = Ok tt
  /\ learning_curve (snd (plot_iteration batch_size env shared p))
     = learning_curve p.
Proof.
  intros Hnot.
  rewrite plot_iteration_cases, Hnot, Drawing.end_of_turn_ok.
  split; reflexivity.
Qed.

(** X12. No redraw without a new episode. After a turn whose redraw was
    due, a turn on a snapshot with no more returns than that one
    completes and leaves the learning curve as it is. *)
Theorem no_redraw_without_new_returns
        (batch_size : Z) (env env' : EnvReading)
        (shared shared' : SharedReturns) (p : Plotter) :
  redraw_due shared p = true ->
  (length (episodic_returns shared') <= length (episodic_returns shared))%nat ->
  redraw_due shared' (snd (plot_iteration batch_size env shared p)) = false
  /\ fst (plot_iteration batch_size env' shared'
                         (snd (plot_iteration batch_size env shared p)))
     = Ok tt
  /\ learning_curve
       (snd (plot_iteration batch_size env' shared'
                            (snd (plot_iteration batch_size env shared p))))
     = learning_curve (snd (plot_iteration batch_size env shared p)).
Proof.
  intros Hdue Hle.
  pose proof (old_size_after_turn batch_size env shared p) as Hsize.
  rewrite Hdue in Hsize.
  generalize dependent (snd (plot_iteration batch_size env shared p)).
  intros p' Hsize.
  assert (Hnot : redraw_due shared' p' = false).
  { unfold redraw_due. rewrite Hsize.
    apply andb_false_iff. right. apply Nat.ltb_ge. exact Hle. }
  split; [exact Hnot|]. apply turn_not_due. exact Hnot.
Qed.

Lemma no_redraw_without_new_returns_witness :
  let shared := mkShared false [1; 2; 3]%float [1000; 1000; 1000] in
  let env := mkEnv 1 2 3 4 5 in
  let p := setup (mkShared false [] []) in
  redraw_due shared p = true
  /\ redraw_due shared (snd (plot_iteration 2048 env shared p)) = false.
Proof.
  cbv zeta. split; [reflexivity|].
  destruct (no_redraw_without_new_returns
              2048 (mkEnv 1 2 3 4 5) (mkEnv 1 2 3 4 5)
              (mkShared false [1; 2; 3]%float [1000; 1000; 1000])
              (mkShared false [1; 2; 3]%float [1000; 1000; 1000])
              (setup (mkShared false [] [])) eq_refl (le_n _))
    as [Hnot _].
  exact Hnot.
Defined.

(** *** The first subplot and the loop as a whole *)


(** X14. The log of the loop is made of whole turns. However the loop
    stands after some observations (still running, returned or dead),
    the number [k] of turns it completed is at most their number, the
    counter has grown by [k] and the effects by [k] times sleep, draw,
    flush, in this order; a loop still running has completed a turn for
    every observation and never read the flag as 0. *)
Theorem loop_log_is_whole_turns (batch_size : Z) :
  forall (obs : list Observation) (p0 : Plotter),
    let final := plot_loop batch_size obs p0 in
    exists k : nat,
      (k <= length obs)%nat
      /\ count (snd final) = (count p0 + k)%nat
      /\ effects (snd final)
         = effects p0 ++ concat (repeat turn_effects k)
      /\ (fst final = Running ->
          k = length obs
          /\ Forall (fun o => plot_running_value o <> 0) obs).
Proof.
  induction obs as [|o obs IH]; intros p0; cbv zeta; cbn [plot_loop].
  - exists 0%nat. cbn. rewrite app_nil_r, Nat.add_0_r.
    split; [lia|]. split; [reflexivity|]. split; [reflexivity|].
    intros _. split; [reflexivity | constructor].
  - destruct (plot_running_value o =? 0) eqn:Hflag.
    + exists 0%nat. cbn. rewrite app_nil_r, Nat.add_0_r.
      split; [lia|]. split; [reflexivity|]. split; [reflexivity|].
      discriminate.
    + pose proof (turn_effects_all_or_nothing
                    batch_size (env_now o) (shared_now o) p0) as Hturn.
      cbv zeta in Hturn.
      destruct (plot_iteration batch_size (env_now o) (shared_now o) p0)
        as [[u|e] p1]; cbn [fst snd] in Hturn.
      * destruct Hturn as [Heff Hcount].
        destruct (IH p1) as [k [Hk [Hc [He Hrun]]]].
        exists (S k). cbn [length repeat concat].
        split; [lia|]. split; [lia|]. split.
        { rewrite He, Heff, <- app_assoc. reflexivity. }
        intros Hstatus. destruct (Hrun Hstatus) as [Hlen Hall].
        split; [lia|]. constructor; [|exact Hall].
        apply Z.eqb_neq. exact Hflag.
      * destruct Hturn as [Heff Hcount].
        exists 0%nat. cbn. rewrite app_nil_r, Nat.add_0_r.
        split; [lia|]. split; [exact Hcount|]. split; [exact Heff|].
        discriminate.
Qed.

Lemma loop_log_is_whole_turns_witness :
  let env := mkEnv 1 2 3 4 5 in
  let shared := mkShared false [1; 2; 3]%float [1000; 1000; 1000] in
  let final := plot_loop 2048 [mkObs 1 env shared; mkObs 1 env shared]
                         (setup (mkShared false [] [])) in
  fst final = Running
  /\ exists k : nat, k = 2%nat /\ count (snd final) = (0 + k)%nat.
Proof.
  cbv zeta. split; [vm_compute; reflexivity|].
  destruct (loop_log_is_whole_turns
              2048
              [mkObs 1 (mkEnv 1 2 3 4 5)
                     (mkShared false [1; 2; 3]%float [1000; 1000; 1000]);
               mkObs 1 (mkEnv 1 2 3 4 5)
                     (mkShared false [1; 2; 3]%float [1000; 1000; 1000])]
              (setup (mkShared false [] [])))
    as [k [_ [Hc [_ Hrun]]]].
  exists k. destruct Hrun as [Hk _]; [vm_compute; reflexivity|].
  split; [exact Hk | exact Hc].
Defined.

(** X15. No file without a normal end. Whatever the observations, the
    plotter writes a file only when the function returns: a process
    that died of an exception, or whose loop is still running, has
    saved nothing. *)
Theorem no_file_unless_returned
        (window_extent : Figure -> Mpl.Bbox) (tag : string) (batch_size : Z)
        (shared_at_start : SharedReturns) (obs : list Observation) :
  let final := plot_dxl_reacher window_extent tag batch_size
                                shared_at_start obs in
  fst final <> Returned -> saved_files (snd final) = [].
Proof.
  cbv zeta. unfold plot_dxl_reacher.
  pose proof (Drawing.plot_loop_saved_files
                batch_size obs (setup shared_at_start)) as Hnone.
  destruct (plot_loop batch_size obs (setup shared_at_start)) as [status p].
  cbn [snd] in Hnone.
  destruct status; cbn [fst snd]; intros Hstatus;
    try (rewrite Hnone; reflexivity).
  exfalso. apply Hstatus. reflexivity.
Qed.

Lemma no_file_unless_returned_witness :
  let env := mkEnv 1 2 3 4 5 in
  let zeros := mkShared false [0; 0; 0]%float [1000; 1000; 1000] in
  let final := plot_dxl_reacher (fun _ => Mpl.mkBbox 0 0 10 20) "tag" 2048
                                (mkShared false [] [])
                                [mkObs 1 env zeros; mkObs 0 env zeros] in
  fst final = Died ValueError /\ saved_files (snd final) = [].
Proof.
  cbv zeta. split; [vm_compute; reflexivity|].
  apply (no_file_unless_returned
           (fun _ => Mpl.mkBbox 0 0 10 20) "tag" 2048 (mkShared false [] [])
           [mkObs 1 (mkEnv 1 2 3 4 5)
                  (mkShared false [0; 0; 0]%float [1000; 1000; 1000]);
            mkObs 0 (mkEnv 1 2 3 4 5)
                  (mkShared false [0; 0; 0]%float [1000; 1000; 1000])]).
  vm_compute. discriminate.
Defined.

End Turns.

(** ** More on the command line *)

Module CommandLineMore.

Import Cli.
Local Open Scope string_scope.

Lemma help_flag :
  parse_optional parser "--help"
  = Optional (help_action ["-h"; "--help"]) "--help" None
  /\ parse_optional parser "-h"
     = Optional (help_action ["-h"; "--help"]) "-h" None.
Proof. split; reflexivity. Qed.

Lemma pattern_after_flag (flag v : string) :
  String.eqb flag "--" = false ->
  pattern parser [flag; v]
  = (flag, parse_optional parser flag)
      :: (if String.eqb v "--" then [(v, Separator)]
          else [(v, parse_optional parser v)]).
Proof.
  intros Hflag. cbn [pattern]. rewrite Hflag.
  destruct (String.eqb v "--"); reflexivity.
Qed.

(** X16. [--id] and [--baud] take integers only. Whatever string follows
    the flag, if [int] does not convert it the script ends with a usage
    error and exit status 2, and [main] is not run; so does the spelling
    [--id=value]. *)
Theorem integer_flags_reject_other_values
        (python_int : string -> option Z) (v : string) :
  python_int v = None ->
  script python_int ["--id"; v] = SystemExit 2
  /\ script python_int ["--baud"; v] = SystemExit 2
  /\ script python_int ["--id=" ++ v] = SystemExit 2
  /\ script python_int ["--baud=" ++ v] = SystemExit 2.
Proof.
  intros Hnone.
  assert (Hspaced : forall flag dest d,
             String.eqb flag "--" = false ->
             parse_optional parser flag
             = Optional (store_action [flag] dest type_int d) flag None ->
             parse_args python_int parser [flag; v] = ErrorExit).
  { intros flag dest d Hflag Hopt. unfold parse_args. cbv zeta.
    rewrite (pattern_after_flag flag v Hflag), Hopt.
    destruct (String.eqb v "--"); [reflexivity|].
    destruct (parse_optional parser v) as [| |a os e| |];
      cbn [map snd existsb is_ambiguous orb consume convert option_map];
      try reflexivity.
    rewrite Hnone. reflexivity. }
  unfold script.
  rewrite (Hspaced "--id" "id" (PyInt 1) eq_refl CommandLine.id_flag).
  rewrite (Hspaced "--baud" "baud" (PyInt 1000000) eq_refl
                   CommandLine.baud_flag).
  split; [reflexivity|]. split; [reflexivity|].
  split; unfold parse_args; vm_compute; rewrite Hnone; reflexivity.
Qed.

Lemma integer_flags_reject_other_values_witness :
  script int_decimal ["--id"; "seven"] = SystemExit 2
  /\ script int_decimal ["--baud=1e6"] = SystemExit 2.
Proof.
  destruct (integer_flags_reject_other_values int_decimal "seven" eq_refl)
    as [Hid _].
  destruct (integer_flags_reject_other_values int_decimal "1e6" eq_refl)
    as [_ [_ [_ Hbaud]]].
  split; [exact Hid | exact Hbaud].
Defined.

(** X17. The help flag pre-empts everything after it. When [--help] or
    [-h] comes first and no later string is an ambiguous abbreviation,
    the script prints the help and exits with status 0 whatever
    follows: [main] is not run, even with valid flags behind. *)
Theorem help_first_never_runs_main
        (python_int : string -> option Z) (rest : list string) :
  existsb is_ambiguous (map snd (pattern parser rest)) = false ->
  script python_int ("--help" :: rest) = SystemExit 0
  /\ script python_int ("-h" :: rest) = SystemExit 0.
Proof.
  intros Hclear. destruct help_flag as [Hlong Hshort].
  unfold script, parse_args. cbv zeta.
  split.
  - change (pattern parser ("--help" :: rest))
      with (("--help", parse_optional parser "--help") :: pattern parser rest).
    rewrite Hlong. cbn [map snd existsb is_ambiguous orb].
    rewrite Hclear. reflexivity.
  - change (pattern parser ("-h" :: rest))
      with (("-h", parse_optional parser "-h") :: pattern parser rest).
    rewrite Hshort. cbn [map snd existsb is_ambiguous orb].
    rewrite Hclear. reflexivity.
Qed.

Lemma help_first_never_runs_main_witness :
  script int_decimal ["--help"; "--id"; "3"] = SystemExit 0
  /\ script int_decimal ["-h"; "--bogus"] = SystemExit 0.
Proof.
  destruct (help_first_never_runs_main int_decimal ["--id"; "3"] eq_refl)
    as [Hlong _].
  destruct (help_first_never_runs_main int_decimal ["--bogus"] eq_refl)
    as [_ Hshort].
  split; [exact Hlong | exact Hshort].
Defined.

(** X18. A flag given twice keeps its last value, and the flags may come
    in any order: for values that read as arguments and convert,
    [--id a --id b] parses as [--id b], and [--port p --id a] as
    [--id a --port p]. *)
Theorem last_value_wins_in_any_order
        (python_int : string -> option Z) (a b p : string) (za zb : Z) :
  a <> "--" -> b <> "--" -> p <> "--" ->
  parse_optional parser a = Positional ->
  parse_optional parser b = Positional ->
  parse_optional parser p = Positional ->
  python_int a = Some za ->
  python_int b = Some zb ->
  parse_args python_int parser ["--id"; a; "--id"; b]
  = Parsed [("port", PyNone); ("id", PyInt zb); ("baud", PyInt 1000000)]
  /\ parse_args python_int parser ["--id"; b]
     = Parsed [("port", PyNone); ("id", PyInt zb); ("baud", PyInt 1000000)]
  /\ parse_args python_int parser ["--port"; p; "--id"; a]
     = Parsed [("port", PyStr p); ("id", PyInt za); ("baud", PyInt 1000000)]
  /\ parse_args python_int parser ["--id"; a; "--port"; p]
     = Parsed [("port", PyStr p); ("id", PyInt za); ("baud", PyInt 1000000)].
Proof.
  intros Ha Hb Hp Hka Hkb Hkp Hza Hzb.
  apply String.eqb_neq in Ha. apply String.eqb_neq in Hb.
  apply String.eqb_neq in Hp.
  unfold parse_args. cbv zeta.
  cbn [pattern String.eqb Ascii.eqb Bool.eqb].
  rewrite ?Ha, ?Hb, ?Hp, ?Hka, ?Hkb, ?Hkp,
    CommandLine.id_flag, CommandLine.port_flag.
  cbn [map snd existsb is_ambiguous orb consume convert].
  rewrite ?Hza, ?Hzb. repeat split.
Qed.

Lemma last_value_wins_in_any_order_witness :
  parse_args int_decimal parser ["--id"; "3"; "--id"; "4"]
  = parse_args int_decimal parser ["--id"; "4"]
  /\ parse_args int_decimal parser ["--port"; "x"; "--id"; "3"]
     = parse_args int_decimal parser ["--id"; "3"; "--port"; "x"].
Proof.
  destruct (last_value_wins_in_any_order int_decimal "3" "4" "x" 3 4)
    as [Htwice [Honce [Hpi Hip]]];
    try discriminate; try reflexivity.
  split; [rewrite Htwice, Honce | rewrite Hpi, Hip]; reflexivity.
Defined.

End CommandLineMore.
